(** * nextkala: the REST control plane (api/api.go)

    A shallow embedding of the HTTP handlers of [api/api.go].  The handlers
    are written in a small state monad over the registry, the response
    writer and a trace of the effectful calls they make.  The [job] package
    (the [JobCache] interface and the methods of [Job]) and the libraries
    (encoding/json, net/http, viper) are interfaces of the embedding. *)

From Stdlib Require Import ZArith NArith List String Ascii Bool Lia.
From Stdlib.Strings Require Import Byte.
From Stdlib.Numbers Require Import DecimalString.
From stdpp Require Import base gmap strings option list.
Import ListNotations.

Local Open Scope Z_scope.

(** ** Go base types *)

(** Go's [error] values are compared with [nil] only; their text is kept. *)
Definition error := string.

(** [[]byte]. *)
Definition bytes := list byte.

(** [time.Time] as nanoseconds since the epoch, [time.Duration] as int64
    nanoseconds. *)
Definition Time := Z.
Definition Duration := Z.

Definition minDuration : Duration := - 2 ^ 63.
Definition maxDuration : Duration := 2 ^ 63 - 1.

(** [t.Sub(u)]: the difference, saturated to the range of [Duration]. *)
Definition Time_Sub (t u : Time) : Duration :=
  let d := t - u in
  if d <? minDuration then minDuration
  else if maxDuration <? d then maxDuration
  else d.

(** [strings.HasSuffix]: some tail of [s] is [suffix]. *)
Fixpoint HasSuffix (s suffix : string) : bool :=
  String.eqb s suffix ||
  match s with
  | EmptyString => false
  | String _ s' => HasSuffix s' suffix
  end.

(** ** The request body as a reader *)

(** An [io.Reader] that yields [rd_data] and then ends, with EOF when
    [rd_err] is [None] and with that read error otherwise. *)
Record Reader := mkReader {
  rd_data : bytes;
  rd_err : option error
}.

(** The first [n] bytes of a slice, counted in [N] as Go counts in int64. *)
Fixpoint takeN (n : N) (l : bytes) : bytes :=
  match l with
  | [] => []
  | b :: l' => if N.eqb n 0 then [] else b :: takeN (N.pred n) l'
  end.

(** [io.LimitReader(r, n)]: stops with EOF after [n] bytes and does not
    touch the underlying reader again. *)
Definition LimitReader (r : Reader) (n : N) : Reader :=
  if (n <=? N.of_nat (length (rd_data r)))%N
  then mkReader (takeN n (rd_data r)) None
  else r.

(** [ioutil.ReadAll]. *)
Definition ReadAll (r : Reader) : bytes * option error :=
  (rd_data r, rd_err r).

(** ** HTTP headers *)

(** [http.Header] is [map[string][]string], keyed by canonical names. *)
Abbreviation Header := (gmap string (list string)).

Section HeaderOps.
(** [textproto.CanonicalMIMEHeaderKey]. *)
Variable canonical : string -> string.

Definition Header_Get (h : Header) (key : string) : string :=
  match h !! canonical key with
  | Some (v :: _) => v
  | _ => EmptyString
  end.

Definition Header_Set (h : Header) (key value : string) : Header :=
  <[canonical key := [value]]> h.
End HeaderOps.

(** ** The data model of package job *)

(** Modelled from the spec: the declaration of [jobType] is not in the
    sources at hand; section 3 gives [type ∈ {local, remote}]. *)
Inductive jobType := LocalJob | RemoteJob.

Definition jobType_eqb (a b : jobType) : bool :=
  match a, b with
  | LocalJob, LocalJob | RemoteJob, RemoteJob => true
  | _, _ => false
  end.

(** Modelled from the spec: the declaration of [JobStatus] is not in the
    sources at hand; section 3 gives [status ∈ {running, success, failed}]. *)
Inductive JobStatus := Status_Running | Status_Success | Status_Failed.

#[global] Instance jobType_eq_dec : EqDecision jobType.
Proof. solve_decision. Defined.

#[global] Instance JobStatus_eq_dec : EqDecision JobStatus.
Proof. solve_decision. Defined.

(** Modelled from the spec: the struct [RemoteProperties] (section 3);
    [api.go] reads and writes [Url] and [Body]. *)
Record RemoteProperties := mkRemoteProperties {
  Url : string;
  Method : string;
  Body : string;
  Headers : list (string * string);
  Timeout : Z;
  ExpectedResponseCodes : list Z
}.

(** Modelled from the spec: the struct [Job] (section 3); [api.go] uses
    [Id], [Name], [Owner], [JobType] and [RemoteProperties]. *)
Record Job := mkJob {
  Name : string;
  Id : string;
  Command : string;
  Owner : string;
  Disabled : bool;
  Schedule : string;
  Retries : N;
  Epsilon : string;
  ParentJobs : list string;
  DependentJobs : list string;
  NextRunAt : Time;
  JobType : jobType;
  RemoteProps : RemoteProperties
}.

Definition Job_with_Id (j : Job) (id : string) : Job :=
  mkJob (Name j) id (Command j) (Owner j) (Disabled j) (Schedule j)
        (Retries j) (Epsilon j) (ParentJobs j) (DependentJobs j)
        (NextRunAt j) (JobType j) (RemoteProps j).

Definition Job_with_Owner (j : Job) (owner : string) : Job :=
  mkJob (Name j) (Id j) (Command j) owner (Disabled j) (Schedule j)
        (Retries j) (Epsilon j) (ParentJobs j) (DependentJobs j)
        (NextRunAt j) (JobType j) (RemoteProps j).

Definition RemoteProperties_with_Body (p : RemoteProperties) (b : string)
  : RemoteProperties :=
  mkRemoteProperties (Url p) (Method p) b (Headers p) (Timeout p)
                     (ExpectedResponseCodes p).

(** [j.RemoteProperties.Body = b]. *)
Definition Job_with_Body (j : Job) (b : string) : Job :=
  mkJob (Name j) (Id j) (Command j) (Owner j) (Disabled j) (Schedule j)
        (Retries j) (Epsilon j) (ParentJobs j) (DependentJobs j)
        (NextRunAt j) (JobType j) (RemoteProperties_with_Body (RemoteProps j) b).

(** Modelled from the spec: the struct [JobStat] (section 3); [api.go] uses
    [JobId], [RanAt], [Status] and [ExecutionDuration]. *)
Record JobStat := mkJobStat {
  RunId : string;
  JobId : string;
  RanAt : Time;
  NumberOfRetries : N;
  Status : JobStatus;
  ExecutionDuration : Duration;
  Output : string
}.

Definition JobStat_with_Status (s : JobStat) (st : JobStatus) : JobStat :=
  mkJobStat (RunId s) (JobId s) (RanAt s) (NumberOfRetries s) st
            (ExecutionDuration s) (Output s).

Definition JobStat_with_ExecutionDuration (s : JobStat) (d : Duration) : JobStat :=
  mkJobStat (RunId s) (JobId s) (RanAt s) (NumberOfRetries s) (Status s)
            d (Output s).

(** Modelled from the spec: the struct [KalaStats] (sections 3 and 4.8). *)
Record KalaStats := mkKalaStats {
  Jobs : N;
  ActiveJobs : N;
  DisabledJobs : N;
  SuccessCount : N;
  ErrorCount : N;
  StatsNextRunAt : Time;
  LastAttemptedRun : Time;
  CreatedAt : Time
}.

(** ** The interfaces the handlers are written against *)

(** An outbound request of net/http: what [http.NewRequest] builds and
    [http.DefaultClient.Do] sends.  [or_deadline] is the timeout of the
    context the request is sent with. *)
Record OutRequest := mkOutRequest {
  or_method : string;
  or_url : string;
  or_body : string;
  or_header : Header;
  or_deadline : option Duration
}.

Definition OutRequest_with_header (q : OutRequest) (h : Header) : OutRequest :=
  mkOutRequest (or_method q) (or_url q) (or_body q) h (or_deadline q).

Definition OutRequest_WithContext (q : OutRequest) (d : option Duration)
  : OutRequest :=
  mkOutRequest (or_method q) (or_url q) (or_body q) (or_header q) d.

(** [http.Response]: [StatusCode], [Status] and the body. *)
Record HttpResponse := mkHttpResponse {
  StatusCode : Z;
  StatusLine : string;
  ResBody : string
}.

(** The interface [job.JobCache], over the state [Cache] of the registry
    and of what it owns (persistence, timers).  A Go result [(v, err)] is
    a pair whose second component is [None] for [nil]. *)
Class JobCache (Cache : Type) := {
  JobCache_Get : Cache -> string -> option Job * option error;
  JobCache_GetAll : Cache -> gmap string Job;
  JobCache_Set : Cache -> Job -> Cache * option error;
  JobCache_GetRun : Cache -> string -> option JobStat * option error;
  JobCache_GetAllRuns : Cache -> string -> list JobStat * option error;
  JobCache_UpdateRun : Cache -> JobStat -> Cache * option error
}.

(** The methods of [*job.Job] and the functions of package job that
    [api.go] calls.  Methods that change the receiver return it. *)
Class JobMethods (Cache : Type) := {
  Job_Init : Job -> Cache -> Job * Cache * option error;
  Job_Delete : Job -> Cache -> Cache * option error;
  Job_Enable : Job -> Cache -> Cache * option error;
  Job_Disable : Job -> Cache -> Cache * option error;
  Job_StopTimer : Job -> Cache -> Cache;
  Job_Run : Job -> Cache -> Cache;
  (** the reading of the job's clock when the request is served *)
  Job_Now : Job -> Time;
  Job_ResponseTimeout : Job -> Duration;
  Job_TryTemplatize : Job -> string -> string + error;
  (** [j.SetHeaders(req, token)] writes to [req.Header] *)
  Job_SetHeaders : Job -> Header -> string -> Header;
  job_DeleteAll : Cache -> Cache * option error;
  job_NewKalaStats : Cache -> KalaStats
}.

(** The libraries and the world outside the process. *)
Class Extern := {
  (** [json.Unmarshal(body, &job.Job{})] *)
  json_Unmarshal_Job : bytes -> Job + error;
  (** [json.Unmarshal(body, &jobStatus)] *)
  json_Unmarshal_JobStatus : bytes -> JobStatus + error;
  (** [json.NewDecoder(res.Body).Decode(&result)] for [result bool] *)
  json_Decode_bool : string -> bool + error;
  (** [textproto.CanonicalMIMEHeaderKey] *)
  CanonicalMIMEHeaderKey : string -> string;
  (** whether [http.NewRequest] accepts the URL *)
  url_Parse_ok : string -> bool;
  (** [http.DefaultClient.Do]: the answer of the remote end *)
  http_Do : OutRequest -> HttpResponse + error;
  (** [viper.GetStringSlice("remote.headers")] *)
  viper_remote_headers : list string
}.

(** ** Requests and responses *)

(** The part of [*http.Request] the handlers read: the method, the route
    variables of gorilla/mux, the headers, the body, and the access token
    the authentication middleware may have put into the context. *)
Record Request := mkRequest {
  req_Method : string;
  req_Vars : gmap string string;
  req_Header : Header;
  req_Body : Reader;
  req_AccessToken : option string
}.

(** [mux.Vars(r)[key]]: a missing key of a Go map reads as the zero value. *)
Definition mux_Vars (r : Request) (key : string) : string :=
  default EmptyString (req_Vars r !! key).

(** What a handler writes to the response body; encoding is left to
    encoding/json. *)
Inductive Payload :=
| KalaStatsResponse (stats : KalaStats)
| ListJobsResponse (jobs : gmap string Job)
| AddJobResponse (id : string)
| JobResponse (j : Job)
| ListJobStatsResponse (job_stats : list JobStat)
| JobRunResponse (job_run : option JobStat)
| apiError (err : string)
| RawBody (s : string).

(** [http.ResponseWriter]: the header map, the status code once it has
    been written, and the payloads written so far. *)
Record ResponseWriter := mkResponseWriter {
  w_header : Header;
  w_code : option Z;
  w_body : list Payload
}.

Definition newResponseWriter : ResponseWriter := mkResponseWriter ∅ None [].

(** The status the client sees: 200 when the handler wrote none. *)
Definition w_status (w : ResponseWriter) : Z := default 200 (w_code w).

(** The effectful calls of a handler, in the order they are made. *)
Inductive Event :=
| EvHttpDo (q : OutRequest)
| EvInit (j : Job)
| EvSet (j : Job)
| EvDelete (j : Job)
| EvDeleteAll
| EvEnable (j : Job)
| EvDisable (j : Job)
| EvStopTimer (j : Job)
| EvRun (j : Job)
| EvUpdateRun (run : JobStat).

Definition is_EvInit (e : Event) : bool :=
  match e with EvInit _ => true | _ => false end.

Definition is_EvHttpDo (e : Event) : bool :=
  match e with EvHttpDo _ => true | _ => false end.

(** Constants of [api.go] and of net/http. *)
Definition ApiUrlPrefix : string := "/api/v1/".
Definition JobPath : string := "job/".
Definition ApiJobPath : string := ApiUrlPrefix +:+ JobPath.
Definition contentType : string := "Content-Type".
Definition jsonContentType : string := "application/json;charset=UTF-8".
Definition httpDelete : string := "DELETE".
Definition httpGet : string := "GET".
Definition httpPost : string := "POST".
Definition httpPut : string := "PUT".

Definition StatusOK : Z := 200.
Definition StatusCreated : Z := 201.
Definition StatusNoContent : Z := 204.
Definition StatusBadRequest : Z := 400.
Definition StatusForbidden : Z := 403.
Definition StatusNotFound : Z := 404.
Definition StatusInternalServerError : Z := 500.

(** The limit both unmarshal helpers pass to [io.LimitReader]. *)
Definition bodyLimit : N := 1048576.

Definition is_nil {A} (e : option A) : bool :=
  match e with None => true | Some _ => false end.

Definition not_empty (s : string) : bool := negb (String.eqb s EmptyString).

(** ** The handler monad *)

Section Handlers.
Context {Cache : Type} {JC : JobCache Cache} {JM : JobMethods Cache}
        {X : Extern}.

Record State := mkState {
  st_cache : Cache;
  st_w : ResponseWriter;
  st_trace : list Event
}.

(** A computation ends normally or in a Go panic. *)
Inductive Result (A : Type) :=
| Done (a : A) (s : State)
| Panicked (s : State).
Arguments Done {A} a s.
Arguments Panicked {A} s.

Definition M (A : Type) := State -> Result A.

Definition ret {A} (a : A) : M A := fun s => Done a s.

Definition bind {A B} (c : M A) (k : A -> M B) : M B :=
  fun s => match c s with
           | Done a s' => k a s'
           | Panicked s' => Panicked s'
           end.

Notation "x <- c1 ;; c2" := (bind c1 (fun x => c2))
  (at level 100, c1 at next level, right associativity).
Notation "c1 ;; c2" := (bind c1 (fun _ => c2))
  (at level 100, right associativity).

(** Dereferencing a pointer: a nil pointer panics. *)
Definition deref {A} (p : option A) : M A :=
  fun s => match p with
           | Some a => Done a s
           | None => Panicked s
           end.

Definition modify_w (f : ResponseWriter -> ResponseWriter) : M unit :=
  fun s => Done tt (mkState (st_cache s) (f (st_w s)) (st_trace s)).

(** An effectful call on the registry: the state changes and the call
    is recorded. *)
Definition call {A} (ev : Event) (f : Cache -> Cache * A) : M A :=
  fun s => let '(c, a) := f (st_cache s) in
           Done a (mkState c (st_w s) (st_trace s ++ [ev])).

(** A read of the registry. *)
Definition query {A} (f : Cache -> A) : M A :=
  fun s => Done (f (st_cache s)) s.

(** [w.Header().Set(key, value)] *)
Definition w_Header_Set (key value : string) : M unit :=
  modify_w (fun w =>
    mkResponseWriter (Header_Set CanonicalMIMEHeaderKey (w_header w) key value)
                     (w_code w) (w_body w)).

(** [w.Header().Del(key)] *)
Definition w_Header_Del (key : string) : M unit :=
  modify_w (fun w =>
    mkResponseWriter (delete (CanonicalMIMEHeaderKey key) (w_header w))
                     (w_code w) (w_body w)).

(** [w.WriteHeader(code)]: only the first status code counts. *)
Definition w_WriteHeader (code : Z) : M unit :=
  modify_w (fun w =>
    match w_code w with
    | Some _ => w
    | None => mkResponseWriter (w_header w) (Some code) (w_body w)
    end).

(** A write to the body sends status 200 first when none was written. *)
Definition w_Write (p : Payload) : M unit :=
  modify_w (fun w =>
    mkResponseWriter (w_header w)
                     (Some (default StatusOK (w_code w)))
                     (w_body w ++ [p])).

(** [http.Error(w, msg, code)] *)
Definition http_Error (msg : Payload) (code : Z) : M unit :=
  w_Header_Del "Content-Length" ;;
  w_Header_Set "Content-Type" "text/plain; charset=utf-8" ;;
  w_Header_Set "X-Content-Type-Options" "nosniff" ;;
  w_WriteHeader code ;;
  w_Write msg.

(** The calls into package job.  [Get] and [GetRun] return pointers; the
    handlers that write through such a pointer ([HandleJobParamsRequest],
    [HandleJobRunRequest]) pass it to [Set] or [UpdateRun] next, and the
    embedding lets the write reach the registry with that call. *)
Definition cache_Get (id : string) : M (option Job * option error) :=
  query (fun c => JobCache_Get c id).

Definition cache_GetAll : M (gmap string Job) :=
  query JobCache_GetAll.

Definition cache_GetRun (id : string) : M (option JobStat * option error) :=
  query (fun c => JobCache_GetRun c id).

Definition cache_GetAllRuns (id : string) : M (list JobStat * option error) :=
  query (fun c => JobCache_GetAllRuns c id).

Definition cache_Set (j : Job) : M (option error) :=
  call (EvSet j) (fun c => JobCache_Set c j).

Definition cache_UpdateRun (run : JobStat) : M (option error) :=
  call (EvUpdateRun run) (fun c => JobCache_UpdateRun c run).

Definition j_Init (j : Job) : M (Job * option error) :=
  call (EvInit j) (fun c => let '(j', c', err) := Job_Init j c in (c', (j', err))).

Definition j_Delete (j : Job) : M (option error) :=
  call (EvDelete j) (Job_Delete j).

Definition j_Enable (j : Job) : M (option error) :=
  call (EvEnable j) (Job_Enable j).

Definition j_Disable (j : Job) : M (option error) :=
  call (EvDisable j) (Job_Disable j).

Definition j_StopTimer (j : Job) : M unit :=
  call (EvStopTimer j) (fun c => (Job_StopTimer j c, tt)).

Definition j_Run (j : Job) : M unit :=
  call (EvRun j) (fun c => (Job_Run j c, tt)).

Definition DeleteAll : M (option error) :=
  call EvDeleteAll job_DeleteAll.

(** [http.DefaultClient.Do(req)] *)
Definition client_Do (q : OutRequest) : M (HttpResponse + error) :=
  fun s => Done (http_Do q)
                (mkState (st_cache s) (st_w s) (st_trace s ++ [EvHttpDo q])).

(** [http.NewRequest(method, url, body)] *)
Definition http_NewRequest (method url body : string) : OutRequest + error :=
  if url_Parse_ok url
  then inl (mkOutRequest method url body ∅ None)
  else inr ("parse " +:+ url).

(** ** The handlers of [api.go] *)

Definition errorEncodeJSON (errToEncode : error) (status : Z) : M unit :=
  let js := apiError errToEncode in
  w_Header_Set contentType jsonContentType ;;
  http_Error js status.

(** [HandleKalaStatsRequest] *)
Definition HandleKalaStatsRequest (r : Request) : M unit :=
  stats <- query job_NewKalaStats ;;
  w_Header_Set contentType jsonContentType ;;
  w_WriteHeader StatusOK ;;
  w_Write (KalaStatsResponse stats).

(** [HandleListJobsRequest] *)
Definition HandleListJobsRequest (r : Request) : M unit :=
  allJobs <- cache_GetAll ;;
  w_Header_Set contentType jsonContentType ;;
  w_WriteHeader StatusOK ;;
  w_Write (ListJobsResponse allJobs).

Definition unmarshalNewJob (r : Request) : Job + error :=
  let '(body, err) := ReadAll (LimitReader (req_Body r) 1048576) in
  match err with
  | Some e => inr e
  | None => json_Unmarshal_Job body
  end.

Definition unmarshalJobStatus (r : Request) : JobStatus + error :=
  let '(body, err) := ReadAll (LimitReader (req_Body r) 1048576) in
  match err with
  | Some e => inr e
  | None => json_Unmarshal_JobStatus body
  end.

(** [validateJob] sends an http request to the remote job, and returns
    the result of that check. *)
Definition validateJob (r : Request) (j : Job) : M (bool * option error) :=
  let token := default EmptyString (req_AccessToken r) in
  let timeout := Job_ResponseTimeout j in
  let ctx := if 0 <? timeout then Some timeout else None in
  match Job_TryTemplatize j (Url (RemoteProps j)) with
  | inr err => ret (false, Some err)
  | inl url =>
    let url := if HasSuffix url "/"
               then url +:+ "validate"
               else url +:+ "/validate" in
    match Job_TryTemplatize j (Body (RemoteProps j)) with
    | inr err => ret (false, Some err)
    | inl body =>
      let method := httpPost in
      match http_NewRequest method url body with
      | inr err => ret (false, Some err)
      | inl req =>
        let req := OutRequest_with_header req
                     (Job_SetHeaders j (or_header req) token) in
        let headers := viper_remote_headers in
        let req :=
          fold_left
            (fun req header =>
               let value := Header_Get CanonicalMIMEHeaderKey
                                       (req_Header r) header in
               if not_empty value
               then OutRequest_with_header req
                      (Header_Set CanonicalMIMEHeaderKey
                                  (or_header req) header value)
               else req)
            headers req in
        res <- client_Do (OutRequest_WithContext req ctx) ;;
        match res with
        | inr err => ret (false, Some err)
        | inl res =>
          if StatusCode res =? StatusOK
          then match json_Decode_bool (ResBody res) with
               | inr err => ret (false, Some err)
               | inl result => ret (result, None)
               end
          else ret (false, Some (StatusLine res))
        end
      end
    end
  end.

(** [HandleAddJob] takes a job object and unmarshals it to a Job type,
    and then throws the job in the schedulers.  The message of the error
    of [Init] is cut short here and in [HandleJobRequest]: in Go it goes
    on with the job, printed with %+v. *)
Definition HandleAddJob (defaultOwner : string) (disableLocalJobs : bool)
           (r : Request) : M unit :=
  match unmarshalNewJob r with
  | inr err => errorEncodeJSON err StatusBadRequest
  | inl newJob =>
    if disableLocalJobs && jobType_eqb (JobType newJob) LocalJob
    then errorEncodeJSON "local jobs are disabled" StatusForbidden
    else
      let newJob :=
        if not_empty defaultOwner && String.eqb (Owner newJob) EmptyString
        then Job_with_Owner newJob defaultOwner
        else newJob in
      v <- (if jobType_eqb (JobType newJob) RemoteJob
            then validateJob r newJob
            else ret (true, None)) ;;
      let '(isValid, err) := v in
      if negb (is_nil err) then w_WriteHeader StatusForbidden
      else if negb isValid then w_WriteHeader StatusForbidden
      else
        i <- j_Init newJob ;;
        let '(newJob, err) := i in
        if negb (is_nil err)
        then errorEncodeJSON
               "Error occurred when initializing the job" StatusBadRequest
        else
          w_Header_Set contentType jsonContentType ;;
          w_WriteHeader StatusCreated ;;
          w_Write (AddJobResponse (Id newJob))
  end.

Definition handleGetJob (r : Request) (j : Job) : M unit :=
  w_Header_Set contentType jsonContentType ;;
  w_WriteHeader StatusOK ;;
  w_Write (JobResponse j).

(** [HandleJobRequest] routes requests to /api/v1/job/{id}: DELETE, GET,
    or an update of the job on PUT. *)
Definition HandleJobRequest (disableLocalJobs : bool) (r : Request) : M unit :=
  let id := mux_Vars r "id" in
  g <- cache_Get id ;;
  let '(j, err) := g in
  if negb (is_nil err) then w_WriteHeader StatusNotFound
  else
    match j with
    | None => w_WriteHeader StatusNotFound
    | Some j =>
      if String.eqb (req_Method r) httpDelete then
        err <- j_Delete j ;;
        match err with
        | Some err => errorEncodeJSON err StatusInternalServerError
        | None => w_WriteHeader StatusNoContent
        end
      else if String.eqb (req_Method r) httpGet then
        handleGetJob r j
      else if String.eqb (req_Method r) httpPut then
        match unmarshalNewJob r with
        | inr err => errorEncodeJSON err StatusBadRequest
        | inl updatedJob =>
          if disableLocalJobs && jobType_eqb (JobType updatedJob) LocalJob
          then errorEncodeJSON "local jobs are disabled" StatusForbidden
          else
            let updatedJob := Job_with_Id updatedJob (Id j) in
            i <- j_Init updatedJob ;;
            let '(updatedJob, err) := i in
            if negb (is_nil err)
            then errorEncodeJSON
                   "Error occurred when initializing the job" StatusBadRequest
            else handleGetJob r updatedJob
        end
      else ret tt
    end.

(** [HandleJobParamsRequest] handles requests to /api/v1/job/{id}/params:
    returns the remote job's parameters on a GET, replaces them on a PUT. *)
Definition HandleJobParamsRequest (r : Request) : M unit :=
  let id := mux_Vars r "id" in
  g <- cache_Get id ;;
  let '(j, err) := g in
  if negb (is_nil err) then w_WriteHeader StatusNotFound
  else
    match j with
    | None => w_WriteHeader StatusNotFound
    | Some j =>
      if negb (jobType_eqb (JobType j) RemoteJob)
      then errorEncodeJSON "Job is not a remote job" StatusForbidden
      else if String.eqb (req_Method r) httpGet then
        w_Header_Set contentType jsonContentType ;;
        w_WriteHeader StatusOK ;;
        w_Write (RawBody (Body (RemoteProps j)))
      else if String.eqb (req_Method r) httpPut then
        let '(bodyBytes, err) := ReadAll (req_Body r) in
        if negb (is_nil err) then w_WriteHeader StatusBadRequest
        else
          let j := Job_with_Body j (string_of_list_byte bodyBytes) in
          err <- cache_Set j ;;
          if negb (is_nil err) then w_WriteHeader StatusInternalServerError
          else w_WriteHeader StatusNoContent
      else ret tt
    end.

(** [HandleDeleteAllJobs] is the handler for deleting all jobs. *)
Definition HandleDeleteAllJobs (disableDeleteAll : bool) (r : Request)
  : M unit :=
  if disableDeleteAll then w_WriteHeader StatusForbidden
  else
    err <- DeleteAll ;;
    match err with
    | Some err => errorEncodeJSON err StatusInternalServerError
    | None => w_WriteHeader StatusNoContent
    end.

(** [HandleStartJobRequest] is the handler for manually starting jobs. *)
Definition HandleStartJobRequest (r : Request) : M unit :=
  let id := mux_Vars r "id" in
  g <- cache_Get id ;;
  let '(j, err) := g in
  if negb (is_nil err) then w_WriteHeader StatusNotFound
  else
    match j with
    | None => w_WriteHeader StatusNotFound
    | Some j =>
      j_StopTimer j ;;
      j_Run j ;;
      w_WriteHeader StatusNoContent
    end.

(** [HandleDisableJobRequest] is the handler for disabling jobs. *)
Definition HandleDisableJobRequest (r : Request) : M unit :=
  let id := mux_Vars r "id" in
  g <- cache_Get id ;;
  let '(j, err) := g in
  if negb (is_nil err) then w_WriteHeader StatusNotFound
  else
    match j with
    | None => w_WriteHeader StatusNotFound
    | Some j =>
      err <- j_Disable j ;;
      match err with
      | Some err => errorEncodeJSON err StatusInternalServerError
      | None => w_WriteHeader StatusNoContent
      end
    end.

(** [HandleEnableJobRequest] is the handler for enabling jobs. *)
Definition HandleEnableJobRequest (r : Request) : M unit :=
  let id := mux_Vars r "id" in
  g <- cache_Get id ;;
  let '(j, err) := g in
  if negb (is_nil err) then w_WriteHeader StatusNotFound
  else
    match j with
    | None => w_WriteHeader StatusNotFound
    | Some j =>
      err <- j_Enable j ;;
      match err with
      | Some err => errorEncodeJSON err StatusInternalServerError
      | None => w_WriteHeader StatusNoContent
      end
    end.

(** [HandleListJobRunsRequest] is the handler listing executions. *)
Definition HandleListJobRunsRequest (r : Request) : M unit :=
  let id := mux_Vars r "id" in
  g <- cache_Get id ;;
  let '(_, err) := g in
  if negb (is_nil err) then w_WriteHeader StatusNotFound
  else
    a <- cache_GetAllRuns id ;;
    let '(allJobs, err) := a in
    if negb (is_nil err) then w_WriteHeader StatusNotFound
    else
      w_Header_Set contentType jsonContentType ;;
      w_WriteHeader StatusOK ;;
      w_Write (ListJobStatsResponse allJobs).

(** [HandleJobRunRequest] is the handler for doing things to a single
    job run, /api/v1/job/{job_id}/executions/{run_id}/. *)
Definition HandleJobRunRequest (r : Request) : M unit :=
  let runID := mux_Vars r "id" in
  if String.eqb (req_Method r) httpGet then
    g <- cache_GetRun runID ;;
    let '(run, err) := g in
    if negb (is_nil err) then w_WriteHeader StatusNotFound
    else
      w_Header_Set contentType jsonContentType ;;
      w_WriteHeader StatusOK ;;
      w_Write (JobRunResponse run)
  else if String.eqb (req_Method r) httpPut then
    g <- cache_GetRun runID ;;
    let '(run, err) := g in
    if negb (is_nil err) then w_WriteHeader StatusNotFound
    else
      run <- deref run ;;
      g <- cache_Get (JobId run) ;;
      (* the error of this lookup is logged and nothing else *)
      let '(j, _) := g in
      match unmarshalJobStatus r with
      | inr err => w_WriteHeader StatusBadRequest
      | inl jobStatus =>
        let run := JobStat_with_Status run jobStatus in
        j <- deref j ;;
        let run := JobStat_with_ExecutionDuration run
                     (Time_Sub (Job_Now j) (RanAt run)) in
        err <- cache_UpdateRun run ;;
        if negb (is_nil err) then w_WriteHeader StatusInternalServerError
        else
          w_Header_Set contentType jsonContentType ;;
          w_WriteHeader StatusNoContent
      end
  else ret tt.

(** ** Running a handler *)

Definition initState (c : Cache) : State := mkState c newResponseWriter [].

Definition run (h : Request -> M unit) (c : Cache) (r : Request)
  : Result unit :=
  h r (initState c).

Definition final_state {A} (res : Result A) : State :=
  match res with Done _ s => s | Panicked s => s end.

Definition panicked {A} (res : Result A) : bool :=
  match res with Done _ _ => false | Panicked _ => true end.

(** The status code of the response, the registry and the calls made. *)
Definition status_of {A} (res : Result A) : Z := w_status (st_w (final_state res)).
Definition cache_of {A} (res : Result A) : Cache := st_cache (final_state res).
Definition trace_of {A} (res : Result A) : list Event := st_trace (final_state res).
Definition body_of {A} (res : Result A) : list Payload :=
  w_body (st_w (final_state res)).

End Handlers.

Arguments Done {Cache A} a s.
Arguments Panicked {Cache A} s.

(** ** A mock registry and a mock outside world

    The tests of package job run against [NewMockCache]; the instances
    below play that part here: an in-memory registry whose persistence
    can be switched off, a fixed clock, and a scripted remote end. *)

Module Mock.

Record MemCache := mkMemCache {
  mc_jobs : gmap string Job;
  mc_runs : gmap string JobStat;
  (** ids of the jobs whose timer is armed *)
  mc_armed : gset string;
  (** whether the persistence layer answers *)
  mc_store_up : bool;
  (** the source of fresh ids *)
  mc_next : nat
}.

Definition ErrJobDoesntExist : error := "unknown job".
Definition ErrRunDoesntExist : error := "unknown run".
Definition ErrPersistence : error := "persistence unavailable".
Definition ErrBadTemplate : error := "bad template".

Definition isSomeb {A} (o : option A) : bool :=
  match o with Some _ => true | None => false end.

(** Modelled from the spec: [JobCache.Get] (section 4.2), a lookup in
    the mapping id -> Job; a missing id is [ErrUnknownJob]. *)
Definition Get (c : MemCache) (id : string) : option Job * option error :=
  match mc_jobs c !! id with
  | Some j => (Some j, None)
  | None => (None, Some ErrJobDoesntExist)
  end.

(** Modelled from the spec: [JobCache.Set] (sections 4.1 and 4.2), the
    job is saved and installed under its id; a failing store fails the
    call and installs nothing. *)
Definition Set_job (c : MemCache) (j : Job) : MemCache * option error :=
  if mc_store_up c
  then (mkMemCache (<[Id j := j]> (mc_jobs c)) (mc_runs c) (mc_armed c)
                   (mc_store_up c) (mc_next c), None)
  else (c, Some ErrPersistence).

(** Modelled from the spec: [GetRun] (section 4.1), a lookup in the
    mapping run-id -> JobStat; a missing id is [ErrUnknownRun]. *)
Definition GetRun (c : MemCache) (id : string) : option JobStat * option error :=
  match mc_runs c !! id with
  | Some s => (Some s, None)
  | None => (None, Some ErrRunDoesntExist)
  end.

(** Modelled from the spec: [ListRuns(job-id)] (section 4.1), a full
    scan of the stored runs. *)
Definition GetAllRuns (c : MemCache) (id : string) : list JobStat * option error :=
  if mc_store_up c
  then (filter (fun s => String.eqb (JobId s) id = true)
               (snd <$> map_to_list (mc_runs c)), None)
  else ([], Some ErrPersistence).

(** Modelled from the spec: [UpdateRun(s)] (section 4.1). *)
Definition UpdateRun (c : MemCache) (s : JobStat) : MemCache * option error :=
  if mc_store_up c
  then (mkMemCache (mc_jobs c) (<[RunId s := s]> (mc_runs c)) (mc_armed c)
                   (mc_store_up c) (mc_next c), None)
  else (c, Some ErrPersistence).

Definition fresh_id (n : nat) : string :=
  "job-" +:+ NilEmpty.string_of_uint (Nat.to_uint n).

(** Modelled from the spec: [Job.Init] (sections 3, 4.2 and 4.6): an id
    is assigned when the job has none, the parents must resolve, the job
    is saved and installed, and its timer is armed unless the job is
    disabled. *)
Definition Init (j : Job) (c : MemCache) : Job * MemCache * option error :=
  let j := if String.eqb (Id j) EmptyString
           then Job_with_Id j (fresh_id (mc_next c)) else j in
  if negb (forallb (fun p => isSomeb (mc_jobs c !! p)) (ParentJobs j))
  then (j, c, Some ErrJobDoesntExist)
  else if negb (mc_store_up c) then (j, c, Some ErrPersistence)
  else (j,
        mkMemCache (<[Id j := j]> (mc_jobs c)) (mc_runs c)
                   (if Disabled j then mc_armed c ∖ {[Id j]}
                    else mc_armed c ∪ {[Id j]})
                   (mc_store_up c) (S (mc_next c)),
        None).

(** Modelled from the spec: [Job.Delete] (section 4.2): the timer is
    removed, then the job. *)
Definition Delete (j : Job) (c : MemCache) : MemCache * option error :=
  if mc_store_up c
  then (mkMemCache (delete (Id j) (mc_jobs c)) (mc_runs c)
                   (mc_armed c ∖ {[Id j]}) (mc_store_up c) (mc_next c), None)
  else (c, Some ErrPersistence).

Definition Job_with_Disabled (j : Job) (d : bool) : Job :=
  mkJob (Name j) (Id j) (Command j) (Owner j) d (Schedule j)
        (Retries j) (Epsilon j) (ParentJobs j) (DependentJobs j)
        (NextRunAt j) (JobType j) (RemoteProps j).

(** Modelled from the spec: Enable and Disable (section 4.6). *)
Definition Enable (j : Job) (c : MemCache) : MemCache * option error :=
  if mc_store_up c
  then (mkMemCache (<[Id j := Job_with_Disabled j false]> (mc_jobs c))
                   (mc_runs c) (mc_armed c ∪ {[Id j]})
                   (mc_store_up c) (mc_next c), None)
  else (c, Some ErrPersistence).

Definition Disable (j : Job) (c : MemCache) : MemCache * option error :=
  if mc_store_up c
  then (mkMemCache (<[Id j := Job_with_Disabled j true]> (mc_jobs c))
                   (mc_runs c) (mc_armed c ∖ {[Id j]})
                   (mc_store_up c) (mc_next c), None)
  else (c, Some ErrPersistence).

Definition StopTimer (j : Job) (c : MemCache) : MemCache :=
  mkMemCache (mc_jobs c) (mc_runs c) (mc_armed c ∖ {[Id j]})
             (mc_store_up c) (mc_next c).

(** Modelled from the spec: a manual start (section 4.6) records one
    run at the clock's reading and arms the timer again. *)
Definition Run (now : Time) (j : Job) (c : MemCache) : MemCache :=
  let rid := fresh_id (mc_next c) in
  mkMemCache (mc_jobs c)
             (<[rid := mkJobStat rid (Id j) now 0 Status_Success 0 EmptyString]>
                (mc_runs c))
             (mc_armed c ∪ {[Id j]}) (mc_store_up c) (S (mc_next c)).

Definition DeleteAll (c : MemCache) : MemCache * option error :=
  if mc_store_up c
  then (mkMemCache ∅ (mc_runs c) ∅ (mc_store_up c) (mc_next c), None)
  else (c, Some ErrPersistence).

(** Modelled from the spec: a templater (section 4.4) that knows no
    identifier: any token is [ErrBadTemplate]. *)
Definition TryTemplatize (j : Job) (s : string) : string + error :=
  match String.index 0 "{{" s with
  | Some _ => inr ErrBadTemplate
  | None => inl s
  end.

(** The job's own headers, then the bearer token when there is one. *)
Definition SetHeaders (j : Job) (h : Header) (token : string) : Header :=
  let h := fold_left (fun h kv => <[kv.1 := [kv.2]]> h)
                     (Headers (RemoteProps j)) h in
  if String.eqb token EmptyString then h
  else <["Authorization" := ["Bearer " +:+ token]]> h.

Definition count_jobs (p : Job -> bool) (c : MemCache) : N :=
  N.of_nat (length (filter (fun j => p j = true) (snd <$> map_to_list (mc_jobs c)))).

Definition count_runs (st : JobStatus) (c : MemCache) : N :=
  N.of_nat (length (filter (fun s => Status s = st)
                           (snd <$> map_to_list (mc_runs c)))).

(** Modelled from the spec: the roll-up of section 4.8. *)
Definition NewKalaStats (now : Time) (c : MemCache) : KalaStats :=
  let active := filter (fun j => Disabled j = false)
                       (snd <$> map_to_list (mc_jobs c)) in
  mkKalaStats (N.of_nat (size (mc_jobs c)))
              (count_jobs (fun j => negb (Disabled j)) c)
              (count_jobs Disabled c)
              (count_runs Status_Success c)
              (count_runs Status_Failed c)
              (match NextRunAt <$> active with
               | [] => 0
               | t :: ts => fold_left Z.min ts t
               end)
              (fold_left Z.max (RanAt <$> (snd <$> map_to_list (mc_runs c))) 0)
              now.

#[export] Instance mockCache : JobCache MemCache := {
  JobCache_Get := Get;
  JobCache_GetAll := mc_jobs;
  JobCache_Set := Set_job;
  JobCache_GetRun := GetRun;
  JobCache_GetAllRuns := GetAllRuns;
  JobCache_UpdateRun := UpdateRun
}.

(** The methods of [Job] over the mock registry, with the clock stopped
    at [now]. *)
Definition mockMethods (now : Time) : JobMethods MemCache := {|
  Job_Init := Init;
  Job_Delete := Delete;
  Job_Enable := Enable;
  Job_Disable := Disable;
  Job_StopTimer := StopTimer;
  Job_Run := Run now;
  Job_Now := fun _ => now;
  Job_ResponseTimeout := fun j => Timeout (RemoteProps j) * 1000000;
  Job_TryTemplatize := TryTemplatize;
  Job_SetHeaders := SetHeaders;
  job_DeleteAll := DeleteAll;
  job_NewKalaStats := NewKalaStats now
|}.

(** *** The outside world *)

Definition dquote : string := String "034"%char EmptyString.

(** A JSON string literal. *)
Definition json_string (s : string) : string := dquote +:+ s +:+ dquote.

(** A decoder that knows the documents of [docs] and takes anything else
    for a syntax error. *)
Definition decode_from {A} (docs : list (string * A)) (body : string) : A + error :=
  match find (fun d => String.eqb d.1 body) docs with
  | Some d => inl d.2
  | None => inr "invalid character"
  end.

Definition status_docs : list (string * JobStatus) :=
  [ (json_string "running", Status_Running);
    (json_string "success", Status_Success);
    (json_string "failed", Status_Failed) ].

(** Decoding into a [bool]: JSON [null] leaves the zero value. *)
Definition bool_docs : list (string * bool) :=
  [ ("true", true); ("false", false); ("null", false) ].

Definition is_control (a : ascii) : bool :=
  (nat_of_ascii a <? 32)%nat || (nat_of_ascii a =? 127)%nat.

Fixpoint has_control (s : string) : bool :=
  match s with
  | EmptyString => false
  | String a s' => is_control a || has_control s'
  end.

(** The world: the job documents the JSON decoder knows, the scripted
    answer of the remote end, and the configured header names.  Header
    names are taken to be canonical already. *)
Definition mockExtern (docs : list (string * Job))
           (remote : OutRequest -> HttpResponse + error)
           (headers : list string) : Extern := {|
  json_Unmarshal_Job := fun b => decode_from docs (string_of_list_byte b);
  json_Unmarshal_JobStatus :=
    fun b => decode_from status_docs (string_of_list_byte b);
  json_Decode_bool := decode_from bool_docs;
  CanonicalMIMEHeaderKey := fun k => k;
  url_Parse_ok := fun u => negb (has_control u);
  http_Do := remote;
  viper_remote_headers := headers
|}.

End Mock.

(** ** Fixtures: jobs, registries, remote ends and requests *)

Module Fixtures.
Import Mock.

Definition hook : RemoteProperties :=
  mkRemoteProperties "http://svc.local/hook" "POST" "ping" [] 0 [].

Definition no_remote : RemoteProperties :=
  mkRemoteProperties EmptyString EmptyString EmptyString [] 0 [].

(** A remote job as a client submits it: no id, no owner. *)
Definition probe : Job :=
  mkJob "probe" EmptyString EmptyString EmptyString false
        "R2/2030-01-01T00:00:00Z/PT1H" 0 EmptyString [] [] 0 RemoteJob hook.

(** A remote job that names its owner and carries an id of its own. *)
Definition owned : Job :=
  mkJob "owned" "other-id" EmptyString "alice" false
        "R2/2030-01-01T00:00:00Z/PT1H" 0 EmptyString [] [] 0 RemoteJob hook.

(** A remote job whose parent is not in the registry. *)
Definition orphan : Job :=
  mkJob "orphan" EmptyString EmptyString EmptyString false
        EmptyString 0 EmptyString ["missing"] [] 0 RemoteJob hook.

(** A local job. *)
Definition backup : Job :=
  mkJob "backup" EmptyString "backup.sh" EmptyString false
        "R0/2030-01-01T00:00:00Z/P1D" 0 EmptyString [] [] 0 LocalJob no_remote.

Definition docs : list (string * Job) :=
  [ ("doc:probe", probe); ("doc:owned", owned);
    ("doc:orphan", orphan); ("doc:backup", backup) ].

(** A finished run of job j1, and a run whose job is gone. *)
Definition run1 : JobStat :=
  mkJobStat "r1" "j1" 100 0 Status_Success 5 "ok".

Definition run2 : JobStat :=
  mkJobStat "r2" "gone" 100 0 Status_Running 0 EmptyString.

Definition jobs1 : gmap string Job :=
  <["j1" := Job_with_Id probe "j1"]> (<["j2" := Job_with_Id backup "j2"]> ∅).

Definition runs1 : gmap string JobStat :=
  <["r1" := run1]> (<["r2" := run2]> ∅).

Definition empty_cache : MemCache := mkMemCache ∅ ∅ ∅ true 0.
Definition cache1 : MemCache := mkMemCache jobs1 runs1 {["j1"; "j2"]} true 7.
(** The same registry while the store does not answer. *)
Definition cache1_down : MemCache := mkMemCache jobs1 runs1 {["j1"; "j2"]} false 7.

Definition now1 : Time := 160.

Definition remote_says (body : string) : OutRequest -> HttpResponse + error :=
  fun _ => inl (mkHttpResponse 200 "200 OK" body).

Definition methods1 : JobMethods MemCache := mockMethods now1.
Definition world_yes : Extern := mockExtern docs (remote_says "true") ["X-Tenant"].
Definition world_no : Extern := mockExtern docs (remote_says "false") ["X-Tenant"].

Definition body_of_string (s : string) : Reader :=
  mkReader (list_byte_of_string s) None.

Definition request (method id body : string) : Request :=
  mkRequest method {["id" := id]} {["X-Tenant" := ["acme"]]}
            (body_of_string body) None.

(** A body of [pre] and one more byte, and a PUT of it to j1. *)
Definition body_after (pre : bytes) (last : byte) : Reader :=
  mkReader (pre ++ [last]) None.

Definition request_after (pre : bytes) (last : byte) : Request :=
  mkRequest httpPut {["id" := "j1"]} ∅ (body_after pre last) None.

(** As many bytes 'a' as the limit allows. *)
Definition limit_prefix : bytes := repeat x61 (N.to_nat bodyLimit).

End Fixtures.

(** ** The vocabulary of the properties *)

(** The URL of the validation call: ['/validate'] appended, with a ['/']
    inserted only when the URL does not already end in one. *)
Definition validate_url (u : string) : string :=
  if HasSuffix u "/" then u +:+ "validate" else u +:+ "/validate".

(** A status is terminal when the run is over. *)
Definition terminal (st : JobStatus) : bool :=
  match st with
  | Status_Running => false
  | Status_Success | Status_Failed => true
  end.

(** The jobs a trace hands to [Init], in order. *)
Definition init_jobs (t : list Event) : list Job :=
  flat_map (fun e => match e with EvInit j => [j] | _ => [] end) t.

(** Two jobs that differ at most in the body of their remote properties. *)
Definition same_but_Body (j j' : Job) : Prop :=
  Name j' = Name j /\ Id j' = Id j /\ Command j' = Command j /\
  Owner j' = Owner j /\ Disabled j' = Disabled j /\
  Schedule j' = Schedule j /\ Retries j' = Retries j /\
  Epsilon j' = Epsilon j /\ ParentJobs j' = ParentJobs j /\
  DependentJobs j' = DependentJobs j /\ NextRunAt j' = NextRunAt j /\
  JobType j' = JobType j /\
  Url (RemoteProps j') = Url (RemoteProps j) /\
  Method (RemoteProps j') = Method (RemoteProps j) /\
  Headers (RemoteProps j') = Headers (RemoteProps j) /\
  Timeout (RemoteProps j') = Timeout (RemoteProps j) /\
  ExpectedResponseCodes (RemoteProps j') = ExpectedResponseCodes (RemoteProps j).

(** Two jobs that differ at most in their owner. *)
Definition same_but_Owner (j j' : Job) : Prop :=
  Name j' = Name j /\ Id j' = Id j /\ Command j' = Command j /\
  Disabled j' = Disabled j /\ Schedule j' = Schedule j /\
  Retries j' = Retries j /\ Epsilon j' = Epsilon j /\
  ParentJobs j' = ParentJobs j /\ DependentJobs j' = DependentJobs j /\
  NextRunAt j' = NextRunAt j /\ JobType j' = JobType j /\
  RemoteProps j' = RemoteProps j.

(** Two jobs that differ at most in their id. *)
Definition same_but_Id (j j' : Job) : Prop :=
  Name j' = Name j /\ Command j' = Command j /\ Owner j' = Owner j /\
  Disabled j' = Disabled j /\ Schedule j' = Schedule j /\
  Retries j' = Retries j /\ Epsilon j' = Epsilon j /\
  ParentJobs j' = ParentJobs j /\ DependentJobs j' = DependentJobs j /\
  NextRunAt j' = NextRunAt j /\ JobType j' = JobType j /\
  RemoteProps j' = RemoteProps j.

(** Two runs that differ at most in status and execution duration. *)
Definition same_but_outcome (s s' : JobStat) : Prop :=
  RunId s' = RunId s /\ JobId s' = JobId s /\ RanAt s' = RanAt s /\
  NumberOfRetries s' = NumberOfRetries s /\ Output s' = Output s.

Section Vocabulary.
Context {Cache : Type} {JM : JobMethods Cache} {X : Extern}.

(** The answers of the remote end that admit a job: HTTP 200 with a
    body that decodes to JSON true. *)
Definition admits (res : HttpResponse + error) : bool :=
  match res with
  | inl res =>
    (StatusCode res =? 200) &&
    match json_Decode_bool (ResBody res) with
    | inl true => true
    | _ => false
    end
  | inr _ => false
  end.

(** [q] carries every configured header that is non-empty on [r]. *)
Definition forwards (r : Request) (q : OutRequest) : Prop :=
  forall h, In h viper_remote_headers ->
    Header_Get CanonicalMIMEHeaderKey (req_Header r) h <> EmptyString ->
    Header_Get CanonicalMIMEHeaderKey (or_header q) h =
    Header_Get CanonicalMIMEHeaderKey (req_Header r) h.

(** [q] is the validation call of job [j] on request [r]: a POST of the
    templated body to the templated URL with ['/validate'] appended. *)
Definition validate_call (r : Request) (j : Job) (q : OutRequest) : Prop :=
  exists u b,
    Job_TryTemplatize j (Url (RemoteProps j)) = inl u /\
    Job_TryTemplatize j (Body (RemoteProps j)) = inl b /\
    or_method q = "POST" /\
    or_url q = validate_url u /\
    or_body q = b /\
    forwards r q.

(** No validation call can be built: a template fails or the URL does
    not parse. *)
Definition no_validate_call (j : Job) : Prop :=
  match Job_TryTemplatize j (Url (RemoteProps j)) with
  | inr _ => True
  | inl u =>
    match Job_TryTemplatize j (Body (RemoteProps j)) with
    | inr _ => True
    | inl _ => url_Parse_ok (validate_url u) = false
    end
  end.
End Vocabulary.

(** The submitted job with the configured owner filled in. *)
Definition with_default_owner (defaultOwner : string) (j : Job) : Job :=
  if not_empty defaultOwner && String.eqb (Owner j) EmptyString
  then Job_with_Owner j defaultOwner
  else j.

(** The response of a handler that only wrote the status [code]. *)
Definition bare_status (code : Z) : ResponseWriter :=
  mkResponseWriter ∅ (Some code) [].

(** Two requests that agree on everything but what their bodies hold
    past the limit. *)
Definition agree_up_to_limit (r1 r2 : Request) : Prop :=
  req_Method r1 = req_Method r2 /\
  req_Vars r1 = req_Vars r2 /\
  req_Header r1 = req_Header r2 /\
  req_AccessToken r1 = req_AccessToken r2 /\
  LimitReader (req_Body r1) bodyLimit = LimitReader (req_Body r2) bodyLimit.

(** ** The outcomes of the handlers *)

Section Outcomes.
Context {Cache : Type} {JC : JobCache Cache} {JM : JobMethods Cache}
        {X : Extern}.

(** The answer to a lookup that found nothing: 404, nothing written,
    nothing touched. *)
Definition not_found (c : Cache) : Result unit :=
  Done tt (mkState c (bare_status StatusNotFound) []).

Definition lookup_failed (g : option Job * option error) : Prop :=
  g.2 <> None \/ g.1 = None.

(** The response of [errorEncodeJSON]. *)
Definition error_response (err : error) (code : Z) : ResponseWriter :=
  mkResponseWriter
    (Header_Set CanonicalMIMEHeaderKey
       (Header_Set CanonicalMIMEHeaderKey
          (delete (CanonicalMIMEHeaderKey "Content-Length")
             (Header_Set CanonicalMIMEHeaderKey ∅ contentType jsonContentType))
          "Content-Type" "text/plain; charset=utf-8")
       "X-Content-Type-Options" "nosniff")
    (Some code) [apiError err].

Definition json_response (code : Z) (p : Payload) : ResponseWriter :=
  mkResponseWriter
    (Header_Set CanonicalMIMEHeaderKey ∅ contentType jsonContentType)
    (Some code) [p].

(** The handler stops with status [code] after the calls [t]. *)
Definition refused (code : Z) (c : Cache) (t : list Event) : Result unit :=
  Done tt (mkState c (bare_status code) t).

Definition refused_with (err : error) (code : Z) (c : Cache) : Result unit :=
  Done tt (mkState c (error_response err code) []).

(** The handler hands [j] to [Init] after the calls [t] and answers
    with [code] and [answer] when [Init] succeeds, with 400 otherwise. *)
Definition initialized (j : Job) (c : Cache) (t : list Event) (code : Z)
           (answer : Job -> Payload) : Result unit :=
  let '(j', c', err) := Job_Init j c in
  Done tt (mkState c'
             match err with
             | Some _ => error_response
                           "Error occurred when initializing the job"
                           StatusBadRequest
             | None => json_response code (answer j')
             end
             (t ++ [EvInit j])).

(** An operation on a job that was found: the status tells whether the
    operation failed. *)
Definition operated (ev : Event) (out : Cache * option error) : Result unit :=
  Done tt (mkState out.1
             match out.2 with
             | Some err => error_response err StatusInternalServerError
             | None => bare_status StatusNoContent
             end
             [ev]).

(** The run a PUT hands to [UpdateRun]. *)
Definition overwritten (run0 : JobStat) (j : Job) (st : JobStatus) : JobStat :=
  JobStat_with_ExecutionDuration (JobStat_with_Status run0 st)
    (Time_Sub (Job_Now j) (RanAt run0)).

End Outcomes.

Arguments mux_Vars : simpl never.
Arguments unmarshalNewJob : simpl never.
Arguments unmarshalJobStatus : simpl never.
Arguments Time_Sub : simpl never.
Arguments validate_url : simpl never.

(** ** Facts about the base functions *)

Lemma HasSuffix_app (p t : string) : HasSuffix (p +:+ t) t = true.
Proof.
  induction p as [|a p IH].
  - change (EmptyString +:+ t) with t.
    destruct t; cbn [HasSuffix]; rewrite String.eqb_refl; reflexivity.
  - change (String a p +:+ t) with (String a (p +:+ t)).
    cbn [HasSuffix]. rewrite IH. apply orb_true_r.
Qed.

Lemma HasSuffix_inv (s t : string) :
  HasSuffix s t = true -> exists p, s = p +:+ t.
Proof.
  induction s as [|a s IH]; cbn [HasSuffix]; intros H.
  - rewrite orb_false_r in H. apply String.eqb_eq in H.
    exists EmptyString. exact H.
  - apply orb_true_iff in H as [H|H].
    + apply String.eqb_eq in H. exists EmptyString. exact H.
    + destruct (IH H) as [p ->]. exists (String a p). reflexivity.
Qed.

(** [HasSuffix s t] holds exactly when [s] ends in [t]. *)
Lemma HasSuffix_spec (s t : string) :
  HasSuffix s t = true <-> exists p, s = p +:+ t.
Proof.
  split; [apply HasSuffix_inv|]. intros [p ->]. apply HasSuffix_app.
Qed.

(** ['/validate'] is appended to a URL that ends in ['/'] without a second
    ['/'], and with one to any other URL. *)
Lemma validate_url_spec (u : string) :
  ((exists p, u = p +:+ "/") -> validate_url u = u +:+ "validate") /\
  ((forall p, u <> p +:+ "/") -> validate_url u = u +:+ "/validate").
Proof.
  unfold validate_url. split.
  - intros H. apply HasSuffix_spec in H. rewrite H. reflexivity.
  - intros H. destruct (HasSuffix u "/") eqn:E; [|reflexivity].
    apply HasSuffix_inv in E as [p Hp]. destruct (H p Hp).
Qed.

Lemma takeN_firstn (n : N) (l : bytes) : takeN n l = firstn (N.to_nat n) l.
Proof.
  revert n. induction l as [|b l IH]; intros n; cbn [takeN].
  - destruct (N.to_nat n); reflexivity.
  - destruct (N.eqb_spec n 0) as [->|Hn]; [reflexivity|].
    replace (N.to_nat n) with (S (N.to_nat (N.pred n))) by lia.
    cbn. rewrite IH. reflexivity.
Qed.

(** Bytes past the limit are not seen through [takeN]. *)
Lemma takeN_app_exact (n : N) (pre rest : bytes) :
  length pre = N.to_nat n -> takeN n (pre ++ rest) = pre.
Proof.
  intros H. rewrite takeN_firstn, <- H.
  rewrite firstn_app, Nat.sub_diag, firstn_all. cbn. apply app_nil_r.
Qed.

Lemma takeN_length (n : N) (l : bytes) :
  (N.of_nat (length (takeN n l)) <= n)%N.
Proof.
  rewrite takeN_firstn. pose proof (firstn_le_length (N.to_nat n) l).
  rewrite length_firstn. lia.
Qed.

(** What [LimitReader] yields is never longer than the limit. *)
Lemma LimitReader_length (r : Reader) (n : N) :
  (N.of_nat (length (rd_data r)) <= n)%N \/
  (N.of_nat (length (ReadAll (LimitReader r n)).1) <= n)%N.
Proof.
  unfold LimitReader. destruct (N.leb_spec n (N.of_nat (length (rd_data r)))).
  - right. cbn. apply takeN_length.
  - left. lia.
Qed.

Lemma string_of_list_byte_inj (a b : bytes) :
  string_of_list_byte a = string_of_list_byte b -> a = b.
Proof.
  intros H. rewrite <- (list_byte_of_string_of_list_byte a),
    <- (list_byte_of_string_of_list_byte b), H. reflexivity.
Qed.

Lemma not_empty_true (s : string) : not_empty s = true <-> s <> EmptyString.
Proof.
  unfold not_empty. rewrite negb_true_iff. apply String.eqb_neq.
Qed.

Section HeaderFacts.
Variable canonical : string -> string.

Lemma Header_Get_Set (h : Header) (k v k' : string) :
  Header_Get canonical (Header_Set canonical h k v) k' =
  if decide (canonical k = canonical k') then v
  else Header_Get canonical h k'.
Proof.
  unfold Header_Get, Header_Set. rewrite lookup_insert.
  destruct (decide (canonical k = canonical k')); reflexivity.
Qed.

(** [Get] reads through the canonical name only. *)
Lemma Header_Get_canonical (h : Header) (k k' : string) :
  canonical k = canonical k' ->
  Header_Get canonical h k = Header_Get canonical h k'.
Proof. unfold Header_Get. intros ->. reflexivity. Qed.
End HeaderFacts.

(** ** The handlers, path by path *)

Section Properties.
Context {Cache : Type} {JC : JobCache Cache} {JM : JobMethods Cache}
        {X : Extern}.

Ltac step_lookup c r :=
  unfold run, bind, cache_Get, cache_GetRun, query; cbn;
  destruct (JobCache_Get c (mux_Vars r "id")) as [[?|] [?|]]; cbn in *;
  try reflexivity; try congruence.

Lemma HandleJobRequest_not_found dl c r :
  lookup_failed (JobCache_Get c (mux_Vars r "id")) ->
  run (HandleJobRequest dl) c r = not_found c.
Proof.
  intros [H|H]; unfold HandleJobRequest; step_lookup c r.
Qed.

Lemma HandleJobParamsRequest_not_found c r :
  lookup_failed (JobCache_Get c (mux_Vars r "id")) ->
  run HandleJobParamsRequest c r = not_found c.
Proof.
  intros [H|H]; unfold HandleJobParamsRequest; step_lookup c r.
Qed.

Lemma HandleStartJobRequest_not_found c r :
  lookup_failed (JobCache_Get c (mux_Vars r "id")) ->
  run HandleStartJobRequest c r = not_found c.
Proof.
  intros [H|H]; unfold HandleStartJobRequest; step_lookup c r.
Qed.

Lemma HandleEnableJobRequest_not_found c r :
  lookup_failed (JobCache_Get c (mux_Vars r "id")) ->
  run HandleEnableJobRequest c r = not_found c.
Proof.
  intros [H|H]; unfold HandleEnableJobRequest; step_lookup c r.
Qed.

Lemma HandleDisableJobRequest_not_found c r :
  lookup_failed (JobCache_Get c (mux_Vars r "id")) ->
  run HandleDisableJobRequest c r = not_found c.
Proof.
  intros [H|H]; unfold HandleDisableJobRequest; step_lookup c r.
Qed.

(** Listing the runs looks at the error of the lookup only. *)
Lemma HandleListJobRunsRequest_not_found c r :
  (JobCache_Get c (mux_Vars r "id")).2 <> None ->
  run HandleListJobRunsRequest c r = not_found c.
Proof.
  intros H; unfold HandleListJobRunsRequest; step_lookup c r.
Qed.

Lemma HandleListJobRunsRequest_listing_failed c r :
  (JobCache_Get c (mux_Vars r "id")).2 = None ->
  (JobCache_GetAllRuns c (mux_Vars r "id")).2 <> None ->
  run HandleListJobRunsRequest c r = not_found c.
Proof.
  intros H1 H2; unfold HandleListJobRunsRequest; step_lookup c r;
    unfold cache_GetAllRuns, query; cbn;
    destruct (JobCache_GetAllRuns c (mux_Vars r "id")) as [l [?|]];
    cbn in *; try reflexivity; congruence.
Qed.

Lemma HandleJobRunRequest_not_found c r :
  req_Method r = httpGet \/ req_Method r = httpPut ->
  (JobCache_GetRun c (mux_Vars r "id")).2 <> None ->
  run HandleJobRunRequest c r = not_found c.
Proof.
  intros [Hm|Hm] H; unfold run, HandleJobRunRequest; rewrite Hm; cbn;
    unfold bind, cache_GetRun, query; cbn;
    destruct (JobCache_GetRun c (mux_Vars r "id")) as [? [?|]];
    cbn in *; try reflexivity; congruence.
Qed.

Lemma errorEncodeJSON_run (err : error) (code : Z) (c : Cache) (t : list Event) :
  errorEncodeJSON err code (mkState c newResponseWriter t) =
  Done tt (mkState c (error_response err code) t).
Proof. reflexivity. Qed.

Lemma HandleJobRequest_delete dl c r j :
  JobCache_Get c (mux_Vars r "id") = (Some j, None) ->
  req_Method r = httpDelete ->
  run (HandleJobRequest dl) c r = operated (EvDelete j) (Job_Delete j c).
Proof.
  intros H Hm. unfold HandleJobRequest, run, bind, cache_Get, query. cbn.
  rewrite H, Hm. cbn. unfold j_Delete, call, operated. cbn.
  destruct (Job_Delete j c) as [c' [e|]]; reflexivity.
Qed.

Lemma HandleEnableJobRequest_found c r j :
  JobCache_Get c (mux_Vars r "id") = (Some j, None) ->
  run HandleEnableJobRequest c r = operated (EvEnable j) (Job_Enable j c).
Proof.
  intros H. unfold HandleEnableJobRequest, run, bind, cache_Get, query. cbn.
  rewrite H. cbn. unfold j_Enable, call, operated. cbn.
  destruct (Job_Enable j c) as [c' [e|]]; reflexivity.
Qed.

Lemma HandleDisableJobRequest_found c r j :
  JobCache_Get c (mux_Vars r "id") = (Some j, None) ->
  run HandleDisableJobRequest c r = operated (EvDisable j) (Job_Disable j c).
Proof.
  intros H. unfold HandleDisableJobRequest, run, bind, cache_Get, query. cbn.
  rewrite H. cbn. unfold j_Disable, call, operated. cbn.
  destruct (Job_Disable j c) as [c' [e|]]; reflexivity.
Qed.

(** A PUT on a run that was found, with a body that decodes: a job
    that is absent makes the handler panic at [j.Now()]. *)
Lemma HandleJobRunRequest_put c r run0 g st :
  req_Method r = httpPut ->
  JobCache_GetRun c (mux_Vars r "id") = (Some run0, None) ->
  JobCache_Get c (JobId run0) = g ->
  unmarshalJobStatus r = inl st ->
  run HandleJobRunRequest c r =
  match g.1 with
  | None => Panicked (initState c)
  | Some j =>
    let out := JobCache_UpdateRun c (overwritten run0 j st) in
    Done tt (mkState out.1
               match out.2 with
               | Some _ => bare_status StatusInternalServerError
               | None =>
                 mkResponseWriter
                   (Header_Set CanonicalMIMEHeaderKey ∅
                               contentType jsonContentType)
                   (Some StatusNoContent) []
               end
               [EvUpdateRun (overwritten run0 j st)])
  end.
Proof.
  intros Hm Hrun Hj Hst.
  unfold run, HandleJobRunRequest. rewrite Hm. cbn.
  unfold bind, cache_GetRun, query. cbn. rewrite Hrun. cbn.
  unfold cache_Get, query. cbn. rewrite Hj, Hst.
  destruct g as [[j|] e]; cbn; [|reflexivity].
  unfold cache_UpdateRun, call, overwritten. cbn.
  destruct (JobCache_UpdateRun c _) as [c' [err|]]; reflexivity.
Qed.

Lemma HandleJobRunRequest_put_bad_body c r run0 err :
  req_Method r = httpPut ->
  JobCache_GetRun c (mux_Vars r "id") = (Some run0, None) ->
  unmarshalJobStatus r = inr err ->
  run HandleJobRunRequest c r =
  Done tt (mkState c (bare_status StatusBadRequest) []).
Proof.
  intros Hm Hrun Hst.
  unfold run, HandleJobRunRequest. rewrite Hm. cbn.
  unfold bind, cache_GetRun, query. cbn. rewrite Hrun. cbn.
  unfold cache_Get, query. cbn. rewrite Hst.
  destruct (JobCache_Get c (JobId run0)); reflexivity.
Qed.

(** *** The validation call *)

(** The loop of [validateJob] over the configured header names. *)
Lemma forward_loop (r : Request) (hdrs seen : list string) (q0 : OutRequest) :
  let inbound := Header_Get CanonicalMIMEHeaderKey (req_Header r) in
  let q :=
    fold_left
      (fun req header =>
         let value := Header_Get CanonicalMIMEHeaderKey (req_Header r) header in
         if not_empty value
         then OutRequest_with_header req
                (Header_Set CanonicalMIMEHeaderKey (or_header req) header value)
         else req)
      hdrs q0 in
  (forall h, In h seen -> inbound h <> EmptyString ->
             Header_Get CanonicalMIMEHeaderKey (or_header q0) h = inbound h) ->
  or_method q = or_method q0 /\ or_url q = or_url q0 /\
  or_body q = or_body q0 /\ or_deadline q = or_deadline q0 /\
  forall h, In h (seen ++ hdrs) -> inbound h <> EmptyString ->
            Header_Get CanonicalMIMEHeaderKey (or_header q) h = inbound h.
Proof.
  cbv zeta. revert seen q0.
  induction hdrs as [|k hdrs IH]; intros seen q0 Hseen; cbn [fold_left].
  - rewrite app_nil_r. auto.
  - match goal with |- context [fold_left ?f hdrs ?q1] =>
      specialize (IH (seen ++ [k]) q1) end.
    rewrite <- app_assoc in IH. cbn [app] in IH.
    destruct (not_empty (Header_Get CanonicalMIMEHeaderKey (req_Header r) k))
      eqn:Hk.
    + destruct IH as (-> & -> & -> & -> & IH); [|auto].
      intros h [Hh|[<-|[]]]%in_app_or Hne; cbn [or_header OutRequest_with_header];
        rewrite Header_Get_Set.
      * destruct (decide _) as [e|]; [|auto].
        apply Header_Get_canonical. exact e.
      * destruct (decide _); [reflexivity|congruence].
    + destruct IH as (-> & -> & -> & -> & IH); [|auto].
      intros h [Hh|[<-|[]]]%in_app_or Hne; [auto|].
      apply not_empty_true in Hne. congruence.
Qed.

(** [validateJob] either builds no request and fails, or sends exactly
    one POST and passes in the cases [admits] names. *)
Lemma validateJob_cases (r : Request) (j : Job) (s : State) :
  (no_validate_call j /\
   exists err, validateJob r j s = Done (false, Some err) s) \/
  (exists q v,
      validate_call r j q /\
      validateJob r j s =
      Done v (mkState (st_cache s) (st_w s) (st_trace s ++ [EvHttpDo q])) /\
      is_nil v.2 && v.1 = admits (http_Do q)).
Proof.
  unfold validateJob, no_validate_call, validate_call.
  destruct (Job_TryTemplatize j (Url (RemoteProps j))) as [u|e];
    [|left; eauto].
  destruct (Job_TryTemplatize j (Body (RemoteProps j))) as [b|e];
    [|left; eauto].
  unfold http_NewRequest. fold (validate_url u).
  destruct (url_Parse_ok (validate_url u)) eqn:Hurl; [|left; eauto].
  right.
  match goal with |- context [fold_left ?f ?l ?q0] =>
    pose proof (forward_loop r l [] q0) as Hloop; cbv zeta in Hloop;
    set (q1 := fold_left f l q0) in *
  end.
  destruct Hloop as (Hm & Hu & Hb & _ & Hfw); [intros ? []|].
  cbn in Hm, Hu, Hb, Hfw.
  match goal with |- context [client_Do ?q] => set (q2 := q) end.
  assert (Hcall : or_method q2 = "POST" /\ or_url q2 = validate_url u /\
                  or_body q2 = b /\ forwards r q2).
  { subst q2. cbn. repeat split; auto. }
  unfold bind, client_Do, ret.
  destruct (http_Do q2) as [res|e] eqn:Hdo.
  - destruct (StatusCode res =? StatusOK) eqn:Hcode.
    + destruct (json_Decode_bool (ResBody res)) as [result|e] eqn:Hdec.
      * exists q2, (result, None). split; [exists u, b; tauto|].
        split; [reflexivity|]. rewrite Hdo. cbn.
        unfold StatusOK in Hcode. rewrite Hcode, Hdec.
        destruct result; reflexivity.
      * exists q2, (false, Some e). split; [exists u, b; tauto|].
        split; [reflexivity|]. rewrite Hdo. cbn. rewrite Hdec.
        rewrite andb_false_r. reflexivity.
    + exists q2, (false, Some (StatusLine res)). split; [exists u, b; tauto|].
      split; [reflexivity|]. rewrite Hdo. cbn.
      unfold StatusOK in Hcode. rewrite Hcode. reflexivity.
  - exists q2, (false, Some e). split; [exists u, b; tauto|].
    split; [reflexivity|]. rewrite Hdo. reflexivity.
Qed.

(** *** Creating and replacing a job *)

Lemma JobType_with_default_owner (o : string) (j : Job) :
  JobType (with_default_owner o j) = JobType j.
Proof. unfold with_default_owner. destruct (_ && _); reflexivity. Qed.

Lemma HandleAddJob_bad_body (o : string) (dl : bool) (c : Cache) (r : Request) err :
  unmarshalNewJob r = inr err ->
  run (HandleAddJob o dl) c r = refused_with err StatusBadRequest c.
Proof. intros H. unfold run, HandleAddJob. rewrite H. reflexivity. Qed.

Lemma HandleAddJob_local_disabled (o : string) (c : Cache) (r : Request) newJob :
  unmarshalNewJob r = inl newJob ->
  JobType newJob = LocalJob ->
  run (HandleAddJob o true) c r =
  refused_with "local jobs are disabled" StatusForbidden c.
Proof.
  intros H Ht. unfold run, HandleAddJob. rewrite H, Ht. reflexivity.
Qed.

(** A job that is not remote and passes the gate goes to [Init]. *)
Lemma HandleAddJob_local (o : string) (dl : bool) (c : Cache) (r : Request) newJob :
  unmarshalNewJob r = inl newJob ->
  JobType newJob = LocalJob ->
  dl = false ->
  run (HandleAddJob o dl) c r =
  initialized (with_default_owner o newJob) c [] StatusCreated
              (fun j => AddJobResponse (Id j)).
Proof.
  intros H Ht ->. unfold run, HandleAddJob. rewrite H. cbn.
  fold (with_default_owner o newJob).
  rewrite JobType_with_default_owner, Ht. cbn.
  unfold bind, ret, j_Init, call, initialized. cbn.
  destruct (Job_Init _ c) as [[j' c'] [e|]]; reflexivity.
Qed.

(** A remote job goes through [validateJob] first. *)
Lemma HandleAddJob_remote (o : string) (dl : bool) (c : Cache) (r : Request) newJob :
  unmarshalNewJob r = inl newJob ->
  JobType newJob = RemoteJob ->
  let j := with_default_owner o newJob in
  (no_validate_call j /\
   run (HandleAddJob o dl) c r = refused StatusForbidden c []) \/
  (exists q,
      validate_call r j q /\
      run (HandleAddJob o dl) c r =
      if admits (http_Do q)
      then initialized j c [EvHttpDo q] StatusCreated
                       (fun j => AddJobResponse (Id j))
      else refused StatusForbidden c [EvHttpDo q]).
Proof.
  intros H Ht j. unfold run, HandleAddJob. rewrite H, Ht.
  rewrite andb_false_r. fold (with_default_owner o newJob). fold j.
  assert (Hj : JobType j = RemoteJob)
    by (subst j; rewrite JobType_with_default_owner; exact Ht).
  rewrite Hj. cbn [jobType_eqb]. unfold bind.
  destruct (validateJob_cases r j (initState c))
    as [(Hno & e & ->)|(q & v & Hq & -> & Hv)].
  - left. split; [exact Hno|]. reflexivity.
  - right. exists q. split; [exact Hq|]. rewrite <- Hv.
    destruct v as [isValid [e|]]; cbn; [reflexivity|].
    destruct isValid; cbn; [|reflexivity].
    unfold j_Init, call, initialized. cbn.
    destruct (Job_Init j c) as [[j' c'] [e|]]; reflexivity.
Qed.

(** A PUT on a job that was found. *)
Lemma HandleJobRequest_put (dl : bool) (c : Cache) (r : Request) j updatedJob :
  JobCache_Get c (mux_Vars r "id") = (Some j, None) ->
  req_Method r = httpPut ->
  unmarshalNewJob r = inl updatedJob ->
  run (HandleJobRequest dl) c r =
  if dl && jobType_eqb (JobType updatedJob) LocalJob
  then refused_with "local jobs are disabled" StatusForbidden c
  else initialized (Job_with_Id updatedJob (Id j)) c [] StatusOK JobResponse.
Proof.
  intros H Hm Hu. unfold HandleJobRequest, run, bind, cache_Get, query. cbn.
  rewrite H, Hm, Hu. cbn.
  destruct (dl && _); [reflexivity|].
  unfold j_Init, call, initialized. cbn.
  destruct (Job_Init _ c) as [[j' c'] [e|]]; reflexivity.
Qed.

Lemma HandleJobRequest_put_bad_body (dl : bool) (c : Cache) (r : Request) j err :
  JobCache_Get c (mux_Vars r "id") = (Some j, None) ->
  req_Method r = httpPut ->
  unmarshalNewJob r = inr err ->
  run (HandleJobRequest dl) c r = refused_with err StatusBadRequest c.
Proof.
  intros H Hm Hu. unfold HandleJobRequest, run, bind, cache_Get, query. cbn.
  rewrite H, Hm, Hu. reflexivity.
Qed.

(** *** The parameters of a remote job *)

Lemma HandleJobParamsRequest_not_remote (c : Cache) (r : Request) j :
  JobCache_Get c (mux_Vars r "id") = (Some j, None) ->
  JobType j <> RemoteJob ->
  run HandleJobParamsRequest c r =
  refused_with "Job is not a remote job" StatusForbidden c.
Proof.
  intros H Ht. unfold HandleJobParamsRequest, run, bind, cache_Get, query.
  cbn. rewrite H. cbn.
  destruct (JobType j); [reflexivity|congruence].
Qed.

(** A PUT stores everything [ReadAll] returns of the body. *)
Lemma HandleJobParamsRequest_put (c : Cache) (r : Request) j :
  JobCache_Get c (mux_Vars r "id") = (Some j, None) ->
  JobType j = RemoteJob ->
  req_Method r = httpPut ->
  run HandleJobParamsRequest c r =
  match rd_err (req_Body r) with
  | Some _ => refused StatusBadRequest c []
  | None =>
    let j' := Job_with_Body j (string_of_list_byte (rd_data (req_Body r))) in
    let out := JobCache_Set c j' in
    refused (if is_nil out.2 then StatusNoContent
             else StatusInternalServerError)
            out.1 [EvSet j']
  end.
Proof.
  intros H Ht Hm. unfold HandleJobParamsRequest, run, bind, cache_Get, query.
  cbn. rewrite H, Ht, Hm. cbn.
  destruct (rd_err (req_Body r)); [reflexivity|]. cbn.
  unfold cache_Set, call. cbn.
  destruct (JobCache_Set c _) as [c' [e|]]; reflexivity.
Qed.

Lemma HandleJobParamsRequest_get (c : Cache) (r : Request) j :
  JobCache_Get c (mux_Vars r "id") = (Some j, None) ->
  JobType j = RemoteJob ->
  req_Method r = httpGet ->
  run HandleJobParamsRequest c r =
  Done tt (mkState c (json_response StatusOK (RawBody (Body (RemoteProps j)))) []).
Proof.
  intros H Ht Hm. unfold HandleJobParamsRequest, run, bind, cache_Get, query.
  cbn. rewrite H, Ht, Hm. reflexivity.
Qed.

(** *** Reading the outcome of a path *)

Lemma initialized_outcome (j : Job) (c : Cache) (t : list Event) (code : Z)
      (answer : Job -> Payload) :
  let res := initialized j c t code answer in
  panicked res = false /\
  trace_of res = t ++ [EvInit j] /\
  cache_of res = (Job_Init j c).1.2 /\
  status_of res = (if is_nil (Job_Init j c).2 then code else StatusBadRequest) /\
  (is_nil (Job_Init j c).2 = true ->
   body_of res = [answer (Job_Init j c).1.1]).
Proof.
  unfold initialized. destruct (Job_Init j c) as [[j' c'] [e|]]; cbn;
    repeat split; auto; discriminate.
Qed.

Lemma init_jobs_app (t1 t2 : list Event) :
  init_jobs (t1 ++ t2) = init_jobs t1 ++ init_jobs t2.
Proof. unfold init_jobs. apply flat_map_app. Qed.

Lemma Time_Sub_exact (t u : Time) :
  minDuration <= t - u <= maxDuration -> Time_Sub t u = t - u.
Proof.
  intros H. unfold Time_Sub. cbv zeta.
  destruct (Z.ltb_spec (t - u) minDuration); [lia|].
  destruct (Z.ltb_spec maxDuration (t - u)); [lia|reflexivity].
Qed.

Lemma with_default_owner_same (o : string) (j : Job) :
  same_but_Owner j (with_default_owner o j).
Proof.
  unfold with_default_owner, same_but_Owner.
  destruct (_ && _); cbn; repeat split.
Qed.

Lemma with_default_owner_Owner (o : string) (j : Job) :
  (o <> EmptyString -> Owner j = EmptyString ->
   Owner (with_default_owner o j) = o) /\
  (Owner j <> EmptyString -> Owner (with_default_owner o j) = Owner j).
Proof.
  unfold with_default_owner. split.
  - intros Ho Hj. apply not_empty_true in Ho. rewrite Ho, Hj. reflexivity.
  - intros Hj. apply String.eqb_neq in Hj. rewrite Hj, andb_false_r.
    reflexivity.
Qed.

(** Requests that differ at most in what lies past the limit of the
    body. *)
Lemma limited_handlers_agree (o : string) (dl : bool) (c : Cache)
      (r1 r2 : Request) :
  agree_up_to_limit r1 r2 ->
  run (HandleAddJob o dl) c r1 = run (HandleAddJob o dl) c r2 /\
  run (HandleJobRequest dl) c r1 = run (HandleJobRequest dl) c r2 /\
  run HandleJobRunRequest c r1 = run HandleJobRunRequest c r2.
Proof.
  intros (Hm & Hv & Hh & Ht & Hb).
  assert (Hid : forall k, mux_Vars r1 k = mux_Vars r2 k)
    by (intros k; unfold mux_Vars; rewrite Hv; reflexivity).
  assert (Hj : unmarshalNewJob r1 = unmarshalNewJob r2)
    by (unfold unmarshalNewJob; fold bodyLimit; rewrite Hb; reflexivity).
  assert (Hs : unmarshalJobStatus r1 = unmarshalJobStatus r2)
    by (unfold unmarshalJobStatus; fold bodyLimit; rewrite Hb; reflexivity).
  assert (Hval : forall j, validateJob r1 j = validateJob r2 j)
    by (intros j; unfold validateJob; rewrite Hh, Ht; reflexivity).
  repeat split.
  - unfold run, HandleAddJob. rewrite Hj.
    destruct (unmarshalNewJob r2); [|reflexivity].
    destruct (dl && _); [reflexivity|]. rewrite Hval. reflexivity.
  - unfold run, HandleJobRequest. rewrite Hid, Hm, Hj. reflexivity.
  - unfold run, HandleJobRunRequest. rewrite Hid, Hm, Hs. reflexivity.
Qed.

(** ** The claims *)

(** C1, amended.  A create request carrying a remote job either builds
    no validation call (a template fails or the URL does not parse) and
    is answered 403 with the registry untouched, or issues, before
    anything else, one POST of the templated body to the templated URL
    with '/validate' appended (a '/' inserted only when the URL does not
    end in one), forwarding every configured header that is non-empty on
    the inbound request.  The job is handed to [Init] exactly when that
    call returns HTTP 200 with a body decoding to JSON true; it is then
    installed and answered 201 when [Init] succeeds and answered 400
    when [Init] fails.  In every other case the answer is 403 and the
    registry is untouched. *)
Theorem create_remote_job_gated_by_validate
        (o : string) (dl : bool) (c : Cache) (r : Request) (newJob : Job) :
  unmarshalNewJob r = inl newJob ->
  JobType newJob = RemoteJob ->
  let j := with_default_owner o newJob in
  let res := run (HandleAddJob o dl) c r in
  panicked res = false /\
  ((no_validate_call j /\
    trace_of res = [] /\ status_of res = StatusForbidden /\ cache_of res = c) \/
   (exists q,
       validate_call r j q /\
       ((admits (http_Do q) = false /\
         trace_of res = [EvHttpDo q] /\
         status_of res = StatusForbidden /\ cache_of res = c) \/
        (admits (http_Do q) = true /\
         trace_of res = [EvHttpDo q; EvInit j] /\
         cache_of res = (Job_Init j c).1.2 /\
         status_of res = (if is_nil (Job_Init j c).2
                          then StatusCreated else StatusBadRequest))))).
Proof.
  intros H Ht j res. subst res.
  destruct (HandleAddJob_remote o dl c r newJob H Ht)
    as [(Hno & ->)|(q & Hq & ->)]; fold j in Hno || fold j in Hq.
  - split; [reflexivity|]. left. repeat split; auto.
  - destruct (admits (http_Do q)) eqn:Ha.
    + destruct (initialized_outcome j c [EvHttpDo q] StatusCreated
                  (fun j => AddJobResponse (Id j))) as (Hp & Htr & Hc & Hs & _).
      split; [exact Hp|]. right. exists q. split; [exact Hq|]. right.
      repeat split; auto.
    + split; [reflexivity|]. right. exists q. split; [exact Hq|]. left.
      repeat split; auto.
Qed.

(** C2, amended.  A PUT to job/{job_id}/executions/{id}/ on an existing
    run whose job is present, with a well-formed status body, overwrites
    the run's status with the incoming one and sets its execution
    duration to now minus ran-at, whatever the incoming and the stored
    status are; nothing else of the run changes.  The answer is 204 when
    the registry accepts the update and 500 when it does not. *)
Theorem put_run_overwrites_unconditionally
        (c : Cache) (r : Request) (run0 : JobStat) (j : Job) (st : JobStatus) :
  req_Method r = httpPut ->
  JobCache_GetRun c (mux_Vars r "id") = (Some run0, None) ->
  (JobCache_Get c (JobId run0)).1 = Some j ->
  unmarshalJobStatus r = inl st ->
  let res := run HandleJobRunRequest c r in
  exists run',
    Status run' = st /\
    ExecutionDuration run' = Time_Sub (Job_Now j) (RanAt run0) /\
    same_but_outcome run0 run' /\
    panicked res = false /\
    trace_of res = [EvUpdateRun run'] /\
    cache_of res = (JobCache_UpdateRun c run').1 /\
    status_of res = (if is_nil (JobCache_UpdateRun c run').2
                     then StatusNoContent else StatusInternalServerError).
Proof.
  intros Hm Hrun Hj Hst res. subst res.
  rewrite (HandleJobRunRequest_put c r run0 _ st Hm Hrun eq_refl Hst), Hj.
  exists (overwritten run0 j st). cbv zeta.
  destruct (JobCache_UpdateRun c (overwritten run0 j st)) as [c' [e|]];
    cbn; unfold same_but_outcome; cbn; repeat split.
Qed.

(** C4.  With disable-delete-all set, a DELETE to job/all/ is answered
    403, the registry is left exactly as it was and no deletion is
    attempted. *)
Theorem delete_all_disabled (c : Cache) (r : Request) :
  let res := run (HandleDeleteAllJobs true) c r in
  panicked res = false /\
  status_of res = StatusForbidden /\
  cache_of res = c /\
  trace_of res = [].
Proof. cbn. auto. Qed.

(** C5, amended.  A request whose lookup of the job id fails is
    answered 404 by every handler that looks a job up, and a request
    whose lookup of the run id fails is answered 404; in both cases the
    registry is untouched.  On a job or run that was found, a failure of
    delete, enable, disable or of the update of a run is answered 500.
    A failure of listing a job's runs is answered 404. *)
Theorem error_status_by_kind (dl : bool) (c : Cache) (r : Request) :
  ((JobCache_Get c (mux_Vars r "id")).2 <> None ->
   Forall (fun h => run h c r = not_found c)
          [HandleJobRequest dl; HandleJobParamsRequest;
           HandleStartJobRequest; HandleEnableJobRequest;
           HandleDisableJobRequest; HandleListJobRunsRequest]) /\
  ((JobCache_GetRun c (mux_Vars r "id")).2 <> None ->
   req_Method r = httpGet \/ req_Method r = httpPut ->
   run HandleJobRunRequest c r = not_found c) /\
  (forall j,
      JobCache_Get c (mux_Vars r "id") = (Some j, None) ->
      (req_Method r = httpDelete -> (Job_Delete j c).2 <> None ->
       status_of (run (HandleJobRequest dl) c r) = StatusInternalServerError) /\
      ((Job_Enable j c).2 <> None ->
       status_of (run HandleEnableJobRequest c r) = StatusInternalServerError) /\
      ((Job_Disable j c).2 <> None ->
       status_of (run HandleDisableJobRequest c r) = StatusInternalServerError) /\
      ((JobCache_GetAllRuns c (mux_Vars r "id")).2 <> None ->
       status_of (run HandleListJobRunsRequest c r) = StatusNotFound)) /\
  (forall run0 j st,
      req_Method r = httpPut ->
      JobCache_GetRun c (mux_Vars r "id") = (Some run0, None) ->
      (JobCache_Get c (JobId run0)).1 = Some j ->
      unmarshalJobStatus r = inl st ->
      (JobCache_UpdateRun c (overwritten run0 j st)).2 <> None ->
      status_of (run HandleJobRunRequest c r) = StatusInternalServerError).
Proof.
  repeat split.
  - intros H. assert (Hf : lookup_failed (JobCache_Get c (mux_Vars r "id")))
      by (left; exact H).
    repeat constructor;
      auto using HandleJobRequest_not_found, HandleJobParamsRequest_not_found,
        HandleStartJobRequest_not_found, HandleEnableJobRequest_not_found,
        HandleDisableJobRequest_not_found, HandleListJobRunsRequest_not_found.
  - intros H Hm. apply HandleJobRunRequest_not_found; assumption.
  - intros Hm He. rewrite (HandleJobRequest_delete dl c r j H Hm).
    unfold operated. destruct (Job_Delete j c) as [c' [e|]]; cbn in *;
      [reflexivity|congruence].
  - intros He. rewrite (HandleEnableJobRequest_found c r j H).
    unfold operated. destruct (Job_Enable j c) as [c' [e|]]; cbn in *;
      [reflexivity|congruence].
  - intros He. rewrite (HandleDisableJobRequest_found c r j H).
    unfold operated. destruct (Job_Disable j c) as [c' [e|]]; cbn in *;
      [reflexivity|congruence].
  - intros He. rewrite HandleListJobRunsRequest_listing_failed;
      [reflexivity|rewrite H; reflexivity|exact He].
  - intros run0 j st Hm Hrun Hj Hst He.
    rewrite (HandleJobRunRequest_put c r run0 _ st Hm Hrun eq_refl Hst), Hj.
    cbv zeta.
    destruct (JobCache_UpdateRun c (overwritten run0 j st)) as [c' [e|]];
      cbn in *; [reflexivity|congruence].
Qed.

(** C6, amended.  A PUT to job/{id}/ on an existing job with a
    well-formed body hands to [Init] the submitted job with its id set
    to the path id, whatever id the body carries, and changes the
    registry through that call only; the answer is 200 with the replaced
    job when [Init] succeeds and 400 when it fails.  When the body is a
    local job and local jobs are disabled the answer is 403 and nothing
    is installed.  A PUT to an id that is not in the registry is
    answered 404 and installs nothing. *)
Theorem replace_job_keeps_path_id (dl : bool) (c : Cache) (r : Request) :
  req_Method r = httpPut ->
  let id := mux_Vars r "id" in
  let res := run (HandleJobRequest dl) c r in
  (forall j updatedJob,
      JobCache_Get c id = (Some j, None) ->
      Id j = id ->
      unmarshalNewJob r = inl updatedJob ->
      if dl && jobType_eqb (JobType updatedJob) LocalJob
      then status_of res = StatusForbidden /\ cache_of res = c /\
           trace_of res = []
      else
        exists j',
          Id j' = id /\ same_but_Id updatedJob j' /\
          panicked res = false /\
          trace_of res = [EvInit j'] /\
          cache_of res = (Job_Init j' c).1.2 /\
          if is_nil (Job_Init j' c).2
          then status_of res = StatusOK /\
               body_of res = [JobResponse (Job_Init j' c).1.1]
          else status_of res = StatusBadRequest) /\
  (lookup_failed (JobCache_Get c id) ->
   status_of res = StatusNotFound /\ cache_of res = c /\ trace_of res = []).
Proof.
  intros Hm id res. subst id res. split.
  - intros j u Hget Hid Hu.
    rewrite (HandleJobRequest_put dl c r j u Hget Hm Hu).
    destruct (dl && _); [repeat split|].
    exists (Job_with_Id u (mux_Vars r "id")). rewrite Hid.
    destruct (initialized_outcome (Job_with_Id u (mux_Vars r "id")) c []
                StatusOK JobResponse) as (Hp & Htr & Hc & Hs & Hb).
    repeat split; auto.
    destruct (is_nil _); auto.
  - intros Hf. rewrite (HandleJobRequest_not_found dl c r Hf).
    repeat split.
Qed.

(** C7, amended.  A PUT to job/{id}/params/ on an existing remote job
    hands to the registry's [Set] the job with its remote body replaced
    by the request body and every other field unchanged, and makes no
    other call (no timer is touched); the answer is 204 when [Set]
    succeeds, 500 when it fails, and 400 with nothing changed when the
    body cannot be read.  For a job that is not remote, GET and PUT on
    the params path are answered 403 and change nothing. *)
Theorem params_put_replaces_body_only (c : Cache) (r : Request) (j : Job) :
  JobCache_Get c (mux_Vars r "id") = (Some j, None) ->
  let res := run HandleJobParamsRequest c r in
  (JobType j = RemoteJob -> req_Method r = httpPut ->
   match rd_err (req_Body r) with
   | Some _ =>
     status_of res = StatusBadRequest /\ cache_of res = c /\ trace_of res = []
   | None =>
     exists j',
       same_but_Body j j' /\
       Body (RemoteProps j') = string_of_list_byte (rd_data (req_Body r)) /\
       trace_of res = [EvSet j'] /\
       cache_of res = (JobCache_Set c j').1 /\
       status_of res = (if is_nil (JobCache_Set c j').2
                        then StatusNoContent else StatusInternalServerError)
   end) /\
  (JobType j <> RemoteJob ->
   status_of res = StatusForbidden /\ cache_of res = c /\ trace_of res = []).
Proof.
  intros Hget res. subst res. split.
  - intros Ht Hm. rewrite (HandleJobParamsRequest_put c r j Hget Ht Hm).
    destruct (rd_err (req_Body r)); [repeat split|].
    eexists. split; [|split; [|split; [reflexivity|]]].
    + unfold same_but_Body. cbn. repeat split.
    + reflexivity.
    + cbv zeta. destruct (JobCache_Set c _) as [c' [e|]]; split; reflexivity.
  - intros Ht. rewrite (HandleJobParamsRequest_not_remote c r j Hget Ht).
    repeat split.
Qed.

(** C8, amended.  While disable-local-jobs is set, a POST to job/ whose
    body describes a local job, and a PUT to job/{id}/ on an existing
    job whose body describes a local job, are answered 403 and leave the
    registry unchanged; requests whose body describes a job of another
    type are served as if the option were not set. *)
Theorem local_jobs_disabled (o : string) (c : Cache) (r : Request) (newJob : Job) :
  unmarshalNewJob r = inl newJob ->
  (JobType newJob = LocalJob ->
   (let res := run (HandleAddJob o true) c r in
    status_of res = StatusForbidden /\ cache_of res = c /\ trace_of res = []) /\
   (forall j,
       JobCache_Get c (mux_Vars r "id") = (Some j, None) ->
       req_Method r = httpPut ->
       let res := run (HandleJobRequest true) c r in
       status_of res = StatusForbidden /\ cache_of res = c /\
       trace_of res = [])) /\
  (JobType newJob <> LocalJob ->
   run (HandleAddJob o true) c r = run (HandleAddJob o false) c r /\
   run (HandleJobRequest true) c r = run (HandleJobRequest false) c r).
Proof.
  intros Hu. split.
  - intros Ht. split.
    + rewrite (HandleAddJob_local_disabled o c r newJob Hu Ht). repeat split.
    + intros j Hget Hm.
      rewrite (HandleJobRequest_put true c r j newJob Hget Hm Hu), Ht.
      repeat split.
  - intros Ht.
    assert (Hg : jobType_eqb (JobType newJob) LocalJob = false)
      by (destruct (JobType newJob); [congruence|reflexivity]).
    split.
    + unfold run, HandleAddJob. rewrite Hu, Hg. reflexivity.
    + unfold run, HandleJobRequest. rewrite Hu, Hg. reflexivity.
Qed.

(** C9.  When a job is created (the answer is 201), the job handed to
    [Init] is the submitted job with its owner set to the configured
    default-owner when that is non-empty and the submitted owner is
    empty, and with the submitted owner unchanged when it is non-empty;
    no other field differs from what was submitted. *)
Theorem default_owner_on_create
        (o : string) (dl : bool) (c : Cache) (r : Request) (newJob : Job) :
  unmarshalNewJob r = inl newJob ->
  let res := run (HandleAddJob o dl) c r in
  status_of res = StatusCreated ->
  exists j,
    init_jobs (trace_of res) = [j] /\
    same_but_Owner newJob j /\
    (o <> EmptyString -> Owner newJob = EmptyString -> Owner j = o) /\
    (Owner newJob <> EmptyString -> Owner j = Owner newJob).
Proof.
  intros Hu res Hs. subst res.
  exists (with_default_owner o newJob).
  split; [|split; [apply with_default_owner_same
                  |apply with_default_owner_Owner]].
  pose proof (fun t => initialized_outcome (with_default_owner o newJob) c t
                StatusCreated (fun j => AddJobResponse (Id j))) as Hinit.
  cbv zeta in Hinit.
  destruct (JobType newJob) eqn:Ht.
  - destruct dl.
    + rewrite (HandleAddJob_local_disabled o c r newJob Hu Ht) in Hs.
      discriminate Hs.
    + rewrite (HandleAddJob_local o false c r newJob Hu Ht eq_refl) in *.
      destruct (Hinit []) as (_ & -> & _). reflexivity.
  - destruct (HandleAddJob_remote o dl c r newJob Hu Ht)
      as [(_ & Hr)|(q & _ & Hr)]; rewrite Hr in *; [discriminate Hs|].
    destruct (admits (http_Do q)); [|discriminate Hs].
    destruct (Hinit [EvHttpDo q]) as (_ & -> & _). reflexivity.
Qed.

(** C10, as the code has it.  A PUT to job/{job_id}/executions/{id}/ on
    an existing run whose job the registry does not return, with a
    well-formed status body, reaches [j.Now()] on the absent job: the
    handler panics, having written no status and called no [UpdateRun]. *)
Theorem put_run_of_absent_job_panics
        (c : Cache) (r : Request) (run0 : JobStat) (st : JobStatus) :
  req_Method r = httpPut ->
  JobCache_GetRun c (mux_Vars r "id") = (Some run0, None) ->
  (JobCache_Get c (JobId run0)).1 = None ->
  unmarshalJobStatus r = inl st ->
  let res := run HandleJobRunRequest c r in
  panicked res = true /\
  w_code (st_w (final_state res)) = None /\
  trace_of res = [].
Proof.
  intros Hm Hrun Hj Hst res. subst res.
  rewrite (HandleJobRunRequest_put c r run0 _ st Hm Hrun eq_refl Hst), Hj.
  repeat split.
Qed.

End Properties.

(** ** The claims on the mock registry *)

Import Mock Fixtures.

#[local] Existing Instance methods1.

Lemma String_length_of_list_byte (l : bytes) :
  String.length (string_of_list_byte l) = length l.
Proof.
  induction l as [|b l IH]; [reflexivity|].
  change (S (String.length (string_of_list_byte l)) = S (length l)).
  f_equal. exact IH.
Qed.

(** C1, as stated, fails: the validation call returns 200 and JSON true,
    yet the job is not installed, since [Init] rejects it (its parent is
    not in the registry); the answer is 400. *)
Lemma validated_job_not_installed :
  let r := request "POST" "" "doc:orphan" in
  let res := run (HandleAddJob (X:=world_yes) "" false) cache1 r in
  unmarshalNewJob (X:=world_yes) r = inl orphan /\
  JobType orphan = RemoteJob /\
  (exists q, trace_of res = [EvHttpDo q; EvInit orphan] /\
             admits (X:=world_yes) (@http_Do world_yes q) = true) /\
  status_of res = StatusBadRequest /\
  cache_of res = cache1.
Proof.
  cbv zeta. split; [vm_compute; reflexivity|]. split; [reflexivity|].
  split; [|split; vm_compute; reflexivity].
  eexists. split; [vm_compute; reflexivity|reflexivity].
Qed.

Lemma create_remote_job_gated_by_validate_witness :
  let r := request "POST" "" "doc:probe" in
  let res := run (HandleAddJob (X:=world_yes) "ops" false) cache1 r in
  unmarshalNewJob (X:=world_yes) r = inl probe /\
  JobType probe = RemoteJob /\
  exists q,
    or_method q = "POST" /\
    or_url q = "http://svc.local/hook/validate" /\
    or_body q = "ping" /\
    Header_Get (fun k => k) (or_header q) "X-Tenant" = "acme" /\
    trace_of res = [EvHttpDo q; EvInit (Job_with_Owner probe "ops")] /\
    status_of res = StatusCreated.
Proof.
  intros r res.
  assert (H1 : unmarshalNewJob (X:=world_yes) r = inl probe)
    by (vm_compute; reflexivity).
  assert (H2 : JobType probe = RemoteJob) by reflexivity.
  split; [exact H1|]. split; [exact H2|].
  destruct (create_remote_job_gated_by_validate (X:=world_yes)
              "ops" false cache1 r probe H1 H2)
    as [_ [(Hno & _)|(q & Hq & [(Ha & _)|(_ & Htr & _ & Hs)])]].
  - vm_compute in Hno. discriminate Hno.
  - discriminate Ha.
  - exists q. destruct Hq as (u & b & Hu & Hb & Hm & Hurl & Hbody & Hfw).
    vm_compute in Hu, Hb.
    injection Hu as <-. injection Hb as <-.
    split; [exact Hm|]. split; [exact Hurl|]. split; [exact Hbody|].
    split; [|split; [exact Htr|exact Hs]].
    apply (Hfw "X-Tenant"); [left; reflexivity|vm_compute; discriminate].
Defined.

(** C2, as stated, fails: the run is finished (its status is success,
    not running) and the incoming status is not terminal, yet the stored
    run is overwritten, status and duration both. *)
Lemma finished_run_overwritten :
  let r := request "PUT" "r1" (json_string "running") in
  let res := run (HandleJobRunRequest (X:=world_yes)) cache1 r in
  JobCache_GetRun cache1 "r1" = (Some run1, None) /\
  Status run1 = Status_Success /\ ExecutionDuration run1 = 5 /\
  unmarshalJobStatus (X:=world_yes) r = inl Status_Running /\
  terminal Status_Running = false /\
  status_of res = StatusNoContent /\
  JobCache_GetRun (cache_of res) "r1" =
  (Some (mkJobStat "r1" "j1" 100 0 Status_Running 60 "ok"), None).
Proof. cbv zeta. repeat split; vm_compute; reflexivity. Qed.

Lemma put_run_overwrites_unconditionally_witness :
  let r := request "PUT" "r1" (json_string "failed") in
  let res := run (HandleJobRunRequest (X:=world_yes)) cache1 r in
  req_Method r = httpPut /\
  JobCache_GetRun cache1 (mux_Vars r "id") = (Some run1, None) /\
  (JobCache_Get cache1 (JobId run1)).1 = Some (Job_with_Id probe "j1") /\
  unmarshalJobStatus (X:=world_yes) r = inl Status_Failed /\
  exists run',
    Status run' = Status_Failed /\ ExecutionDuration run' = 60 /\
    trace_of res = [EvUpdateRun run'] /\ status_of res = StatusNoContent.
Proof.
  intros r res.
  assert (H1 : req_Method r = httpPut) by reflexivity.
  assert (H2 : JobCache_GetRun cache1 (mux_Vars r "id") = (Some run1, None))
    by (vm_compute; reflexivity).
  assert (H3 : (JobCache_Get cache1 (JobId run1)).1 = Some (Job_with_Id probe "j1"))
    by (vm_compute; reflexivity).
  assert (H4 : unmarshalJobStatus (X:=world_yes) r = inl Status_Failed)
    by (vm_compute; reflexivity).
  repeat (split; [assumption|]).
  destruct (put_run_overwrites_unconditionally (X:=world_yes)
              cache1 r run1 _ Status_Failed H1 H2 H3 H4)
    as (run' & Hs & Hd & _ & _ & Htr & _ & Hst).
  exists run'. repeat split; assumption.
Defined.

(** A PUT of the parameters with a body of [pre] and one more byte: the
    registry ends up holding all of it. *)
Lemma params_put_after_prefix (pre : bytes) :
  length pre = N.to_nat bodyLimit ->
  let r1 := request_after pre x62 in
  let r2 := request_after pre x63 in
  let res1 := run (HandleJobParamsRequest (X:=world_yes)) cache1 r1 in
  let res2 := run (HandleJobParamsRequest (X:=world_yes)) cache1 r2 in
  agree_up_to_limit r1 r2 /\
  status_of res1 = StatusNoContent /\
  status_of res2 = StatusNoContent /\
  exists j1 j2,
    (JobCache_Get (cache_of res1) "j1").1 = Some j1 /\
    (JobCache_Get (cache_of res2) "j1").1 = Some j2 /\
    String.length (Body (RemoteProps j1)) = S (N.to_nat bodyLimit) /\
    Body (RemoteProps j1) <> Body (RemoteProps j2).
Proof.
  intros Hlen. cbv zeta. unfold request_after, body_after.
  assert (Hput : forall r : Request,
             req_Method r = httpPut -> mux_Vars r "id" = "j1" ->
             rd_err (req_Body r) = None ->
             run (HandleJobParamsRequest (X:=world_yes)) cache1 r =
             refused StatusNoContent
               (Set_job cache1
                  (Job_with_Body (Job_with_Id probe "j1")
                     (string_of_list_byte (rd_data (req_Body r))))).1
               [EvSet (Job_with_Body (Job_with_Id probe "j1")
                         (string_of_list_byte (rd_data (req_Body r))))]).
  { intros r Hm Hid Herr.
    rewrite (HandleJobParamsRequest_put (X:=world_yes) cache1 r
               (Job_with_Id probe "j1"));
      [rewrite Herr; reflexivity|rewrite Hid; reflexivity|reflexivity|exact Hm]. }
  assert (Hle : forall b : byte,
             (bodyLimit <=? N.of_nat (length (pre ++ [b])))%N = true)
    by (intros b; apply N.leb_le; rewrite length_app, Hlen; cbn [length]; lia).
  rewrite !Hput by reflexivity. cbn [req_Body rd_data].
  split; [|split; [reflexivity|split; [reflexivity|]]].
  - unfold agree_up_to_limit. repeat split. unfold LimitReader.
    cbn [req_Body rd_data]. rewrite !Hle.
    rewrite !takeN_app_exact by exact Hlen. reflexivity.
  - eexists. eexists.
    split; [reflexivity|]. split; [reflexivity|].
    cbn [Body RemoteProps Job_with_Body RemoteProperties_with_Body]. split.
    + rewrite String_length_of_list_byte, length_app, Hlen. cbn [length]. lia.
    + intros Heq. apply string_of_list_byte_inj, app_inv_head in Heq.
      discriminate Heq.
Qed.

(** C3 on the code: two PUTs to job/j1/params/ whose bodies agree on
    their first 1048576 bytes and differ in the byte after them are both
    answered 204 and leave different bodies in the registry, each one
    byte longer than the limit. *)
Theorem params_put_reads_past_limit :
  let r1 := request_after limit_prefix x62 in
  let r2 := request_after limit_prefix x63 in
  let res1 := run (HandleJobParamsRequest (X:=world_yes)) cache1 r1 in
  let res2 := run (HandleJobParamsRequest (X:=world_yes)) cache1 r2 in
  agree_up_to_limit r1 r2 /\
  status_of res1 = StatusNoContent /\
  status_of res2 = StatusNoContent /\
  exists j1 j2,
    (JobCache_Get (cache_of res1) "j1").1 = Some j1 /\
    (JobCache_Get (cache_of res2) "j1").1 = Some j2 /\
    String.length (Body (RemoteProps j1)) = S (N.to_nat bodyLimit) /\
    Body (RemoteProps j1) <> Body (RemoteProps j2).
Proof. exact (params_put_after_prefix limit_prefix (repeat_length _ _)). Qed.

(** C5, as stated, fails: job j1 is in the registry and listing its runs
    fails in the store, yet the answer is 404, not 500. *)
Lemma listing_failure_answers_404 :
  let r := request "GET" "j1" "" in
  let res := run (HandleListJobRunsRequest (X:=world_yes)) cache1_down r in
  JobCache_Get cache1_down "j1" = (Some (Job_with_Id probe "j1"), None) /\
  (JobCache_GetAllRuns cache1_down "j1").2 = Some ErrPersistence /\
  status_of res = StatusNotFound /\
  status_of res <> StatusInternalServerError.
Proof.
  cbv zeta. repeat split; try (vm_compute; reflexivity).
  vm_compute. discriminate.
Qed.

Lemma error_status_by_kind_witness :
  let r := request "POST" "j1" "" in
  let j := Job_with_Id probe "j1" in
  JobCache_Get cache1_down (mux_Vars r "id") = (Some j, None) /\
  (Job_Enable j cache1_down).2 <> None /\
  (Job_Disable j cache1_down).2 <> None /\
  (JobCache_GetAllRuns cache1_down (mux_Vars r "id")).2 <> None /\
  status_of (run (HandleEnableJobRequest (X:=world_yes)) cache1_down r) =
  StatusInternalServerError /\
  status_of (run (HandleDisableJobRequest (X:=world_yes)) cache1_down r) =
  StatusInternalServerError /\
  status_of (run (HandleListJobRunsRequest (X:=world_yes)) cache1_down r) =
  StatusNotFound.
Proof.
  intros r j.
  assert (H1 : JobCache_Get cache1_down (mux_Vars r "id") = (Some j, None))
    by (vm_compute; reflexivity).
  assert (H2 : (Job_Enable j cache1_down).2 <> None)
    by (vm_compute; discriminate).
  assert (H3 : (Job_Disable j cache1_down).2 <> None)
    by (vm_compute; discriminate).
  assert (H4 : (JobCache_GetAllRuns cache1_down (mux_Vars r "id")).2 <> None)
    by (vm_compute; discriminate).
  repeat (split; [assumption|]).
  destruct (error_status_by_kind (X:=world_yes) false cache1_down r)
    as (_ & _ & Hop & _).
  destruct (Hop j H1) as (_ & He & Hd & Hl).
  split; [exact (He H2)|]. split; [exact (Hd H3)|exact (Hl H4)].
Defined.

(** C6, as stated, fails: job j1 exists and the body is a well-formed
    job, yet with local jobs disabled the PUT of a local job is answered
    403, not 200, and nothing is installed. *)
Lemma replace_refused_when_local_jobs_disabled :
  let r := request "PUT" "j1" "doc:backup" in
  let res := run (HandleJobRequest (X:=world_yes) true) cache1 r in
  JobCache_Get cache1 "j1" = (Some (Job_with_Id probe "j1"), None) /\
  unmarshalNewJob (X:=world_yes) r = inl backup /\
  status_of res = StatusForbidden /\
  status_of res <> StatusOK /\
  cache_of res = cache1.
Proof.
  cbv zeta. repeat split; try (vm_compute; reflexivity).
  vm_compute. discriminate.
Qed.

Lemma replace_job_keeps_path_id_witness :
  let r := request "PUT" "j1" "doc:owned" in
  let res := run (HandleJobRequest (X:=world_yes) false) cache1 r in
  req_Method r = httpPut /\
  JobCache_Get cache1 (mux_Vars r "id") = (Some (Job_with_Id probe "j1"), None) /\
  unmarshalNewJob (X:=world_yes) r = inl owned /\
  Id owned = "other-id" /\
  exists j',
    Id j' = "j1" /\ same_but_Id owned j' /\
    trace_of res = [EvInit j'] /\
    status_of res = StatusOK /\
    body_of res = [JobResponse (Job_Init j' cache1).1.1].
Proof.
  intros r res.
  assert (H1 : req_Method r = httpPut) by reflexivity.
  assert (H2 : JobCache_Get cache1 (mux_Vars r "id") =
               (Some (Job_with_Id probe "j1"), None))
    by (vm_compute; reflexivity).
  assert (H3 : unmarshalNewJob (X:=world_yes) r = inl owned)
    by (vm_compute; reflexivity).
  repeat (split; [assumption|]). split; [reflexivity|].
  destruct (replace_job_keeps_path_id (X:=world_yes) false cache1 r H1)
    as [Hput _].
  destruct (Hput _ owned H2 eq_refl H3)
    as (j' & Hid & Hsame & _ & Htr & _ & Hs).
  exists j'. split; [exact Hid|]. split; [exact Hsame|]. split; [exact Htr|].
  assert (Hok : is_nil (Job_Init j' cache1).2 = true).
  { destruct Hsame as (_ & _ & _ & _ & _ & _ & _ & Hpar & _).
    destruct j'. cbn in Hid, Hpar. vm_compute in Hid, Hpar.
    rewrite Hid, Hpar. reflexivity. }
  rewrite Hok in Hs. exact Hs.
Defined.

(** C7, as stated, fails: j1 is an existing remote job, yet the PUT of
    its parameters is answered 500, not 204, when the registry's [Set]
    fails. *)
Lemma params_put_answers_500 :
  let r := request "PUT" "j1" "pong" in
  let res := run (HandleJobParamsRequest (X:=world_yes)) cache1_down r in
  JobCache_Get cache1_down "j1" = (Some (Job_with_Id probe "j1"), None) /\
  JobType (Job_with_Id probe "j1") = RemoteJob /\
  status_of res = StatusInternalServerError /\
  status_of res <> StatusNoContent.
Proof.
  cbv zeta. repeat split; try (vm_compute; reflexivity).
  vm_compute. discriminate.
Qed.

Lemma params_put_replaces_body_only_witness :
  let r := request "PUT" "j1" "pong" in
  let j := Job_with_Id probe "j1" in
  let res := run (HandleJobParamsRequest (X:=world_yes)) cache1 r in
  JobCache_Get cache1 (mux_Vars r "id") = (Some j, None) /\
  JobType j = RemoteJob /\ req_Method r = httpPut /\
  exists j',
    same_but_Body j j' /\ Body (RemoteProps j') = "pong" /\
    trace_of res = [EvSet j'] /\
    cache_of res = (JobCache_Set cache1 j').1 /\
    status_of res = StatusNoContent.
Proof.
  intros r j res.
  assert (H1 : JobCache_Get cache1 (mux_Vars r "id") = (Some j, None))
    by (vm_compute; reflexivity).
  assert (H2 : JobType j = RemoteJob) by reflexivity.
  assert (H3 : req_Method r = httpPut) by reflexivity.
  repeat (split; [assumption|]).
  destruct (params_put_replaces_body_only (X:=world_yes) cache1 r j H1)
    as [Hput _].
  destruct (Hput H2 H3) as (j' & Hsame & Hbody & Htr & Hc & Hs).
  exists j'. split; [exact Hsame|]. split; [exact Hbody|].
  split; [exact Htr|]. split; [exact Hc|]. exact Hs.
Defined.

(** C8, as stated, fails: with local jobs disabled, a PUT whose body
    describes a local job is answered 404, not 403, when the id is not in
    the registry. *)
Lemma put_local_job_to_missing_id_answers_404 :
  let r := request "PUT" "nope" "doc:backup" in
  let res := run (HandleJobRequest (X:=world_yes) true) cache1 r in
  unmarshalNewJob (X:=world_yes) r = inl backup /\
  JobType backup = LocalJob /\
  req_Method r = httpPut /\
  status_of res = StatusNotFound /\
  status_of res <> StatusForbidden.
Proof.
  cbv zeta. repeat split; try (vm_compute; reflexivity).
  vm_compute. discriminate.
Qed.

Lemma local_jobs_disabled_witness :
  let r := request "PUT" "j1" "doc:backup" in
  unmarshalNewJob (X:=world_yes) r = inl backup /\
  JobType backup = LocalJob /\
  JobCache_Get cache1 (mux_Vars r "id") = (Some (Job_with_Id probe "j1"), None) /\
  req_Method r = httpPut /\
  (let res := run (HandleAddJob (X:=world_yes) "ops" true) cache1 r in
   status_of res = StatusForbidden /\ cache_of res = cache1 /\
   trace_of res = []) /\
  (let res := run (HandleJobRequest (X:=world_yes) true) cache1 r in
   status_of res = StatusForbidden /\ cache_of res = cache1 /\
   trace_of res = []).
Proof.
  intros r.
  assert (H1 : unmarshalNewJob (X:=world_yes) r = inl backup)
    by (vm_compute; reflexivity).
  assert (H2 : JobType backup = LocalJob) by reflexivity.
  assert (H3 : JobCache_Get cache1 (mux_Vars r "id") =
               (Some (Job_with_Id probe "j1"), None))
    by (vm_compute; reflexivity).
  assert (H4 : req_Method r = httpPut) by reflexivity.
  repeat (split; [assumption|]).
  destruct (local_jobs_disabled (X:=world_yes) "ops" cache1 r backup H1)
    as [Hlocal _].
  destruct (Hlocal H2) as [Hpost Hput].
  split; [exact Hpost|exact (Hput _ H3 H4)].
Defined.

Lemma default_owner_on_create_witness :
  let r := request "POST" "" "doc:probe" in
  let res := run (HandleAddJob (X:=world_yes) "ops" false) cache1 r in
  unmarshalNewJob (X:=world_yes) r = inl probe /\
  status_of res = StatusCreated /\
  Owner probe = EmptyString /\
  exists j, init_jobs (trace_of res) = [j] /\ Owner j = "ops".
Proof.
  intros r res.
  assert (H1 : unmarshalNewJob (X:=world_yes) r = inl probe)
    by (vm_compute; reflexivity).
  assert (H2 : status_of res = StatusCreated) by (vm_compute; reflexivity).
  repeat (split; [assumption|]). split; [reflexivity|].
  destruct (default_owner_on_create (X:=world_yes) "ops" false cache1 r probe
              H1 H2) as (j & Hj & _ & Ho & _).
  exists j. split; [exact Hj|]. apply Ho; [discriminate|reflexivity].
Defined.

Lemma put_run_of_absent_job_panics_witness :
  let r := request "PUT" "r2" (json_string "failed") in
  let res := run (HandleJobRunRequest (X:=world_yes)) cache1 r in
  req_Method r = httpPut /\
  JobCache_GetRun cache1 (mux_Vars r "id") = (Some run2, None) /\
  (JobCache_Get cache1 (JobId run2)).1 = None /\
  unmarshalJobStatus (X:=world_yes) r = inl Status_Failed /\
  panicked res = true /\ trace_of res = [].
Proof.
  intros r res.
  assert (H1 : req_Method r = httpPut) by reflexivity.
  assert (H2 : JobCache_GetRun cache1 (mux_Vars r "id") = (Some run2, None))
    by (vm_compute; reflexivity).
  assert (H3 : (JobCache_Get cache1 (JobId run2)).1 = None)
    by (vm_compute; reflexivity).
  assert (H4 : unmarshalJobStatus (X:=world_yes) r = inl Status_Failed)
    by (vm_compute; reflexivity).
  repeat (split; [assumption|]).
  destruct (put_run_of_absent_job_panics (X:=world_yes)
              cache1 r run2 Status_Failed H1 H2 H3 H4) as (Hp & _ & Ht).
  split; [exact Hp|exact Ht].
Defined.
